(** * may.py: a command dispatcher for scripts sitting next to it

    A shallow embedding of [may.py] and the properties of its helpers
    (script enumeration, documentation titles, word wrapping, padding,
    the help listing) and of its entry point.

    Python values are modelled as follows.
    - [str] is [string]; [len] is [String.length]; a Python [int] that the
      caller chooses (a width) is a [Z].
    - An operation that can raise returns a [result]; the exceptions that
      matter to the program are the constructors of [exn].
    - Code that imports modules, calls a script or prints runs in [proc]:
      the list of observable events it produced, and how it ended. *)

From Stdlib Require Import String Ascii List ZArith Lia Bool.
Import ListNotations.
Open Scope string_scope.

(** ** Exceptions and results *)

Inductive exn : Type :=
| ModuleNotFoundError
| IndexError
| AttributeError
| OtherError (what : string).

Inductive result (A : Type) : Type :=
| Ok (a : A)
| Raise (e : exn).

Arguments Ok {A} a.
Arguments Raise {A} e.

Definition res_bind {A B : Type} (m : result A) (k : A -> result B) : result B :=
  match m with
  | Ok a => k a
  | Raise e => Raise e
  end.

Notation "x <- m ;; k" := (res_bind m (fun x => k))
  (at level 61, m at next level, right associativity).

(** ** The Python built-ins the program uses *)

Module Py.

Definition nl : ascii := "010"%char.
Definition tab : ascii := "009"%char.
Definition space : ascii := " "%char.

Definition NL : string := String nl "".
Definition TAB : string := String tab "".

(** [seq[i]] for a list and a non-negative index. *)
Definition getitem {A : Type} (l : list A) (i : nat) : result A :=
  match nth_error l i with
  | Some a => Ok a
  | None => Raise IndexError
  end.

(** [s.split(sep)] for a non-empty [sep]: the pieces between the
    occurrences of [sep], found from left to right without overlap.
    [skip] counts the characters of a separator that has just been
    recognised and is still to be passed over. *)
Fixpoint split_from (sep : string) (skip : nat) (s : string) : list string :=
  match s with
  | EmptyString => [EmptyString]
  | String c s' =>
      match skip with
      | S k => split_from sep k s'
      | O =>
          if String.prefix sep s
          then EmptyString :: split_from sep (String.length sep - 1) s'
          else match split_from sep 0 s' with
               | piece :: pieces => String c piece :: pieces
               | [] => [String c EmptyString]
               end
      end
  end.

Definition split (sep s : string) : list string := split_from sep 0 s.

(** [sep.join(pieces)]. *)
Fixpoint join (sep : string) (pieces : list string) : string :=
  match pieces with
  | [] => EmptyString
  | [p] => p
  | p :: ps => p ++ sep ++ join sep ps
  end.

(** [s[n:]]. *)
Fixpoint slice_from (n : nat) (s : string) : string :=
  match n, s with
  | O, _ => s
  | S _, EmptyString => EmptyString
  | S k, String _ s' => slice_from k s'
  end.

(** [s[1:]]. *)
Definition drop_first (s : string) : string := slice_from 1 s.

(** [s[:-1]]. *)
Fixpoint drop_last (s : string) : string :=
  match s with
  | EmptyString => EmptyString
  | String _ EmptyString => EmptyString
  | String c s' => String c (drop_last s')
  end.

(** [s[-1]]: the last character; indexing the empty string raises. *)
Fixpoint last (s : string) : result ascii :=
  match s with
  | EmptyString => Raise IndexError
  | String c EmptyString => Ok c
  | String _ s' => last s'
  end.

(** [re.match("^\n", s)] as a truth value: [s] starts with a newline. *)
Definition starts_with_newline (s : string) : bool :=
  match s with
  | String c _ => Ascii.eqb c nl
  | EmptyString => false
  end.

(** [re.match("(.+)\.py", s)], as its group 1 when there is a match.
    The match is anchored at the start of [s] only.  [.+] takes one or more
    characters other than a newline and is greedy: the engine gives
    characters back one at a time until the literal [.py] follows, so the
    group is the longest such prefix. *)
Fixpoint match_dotplus_py (s : string) : option string :=
  match s with
  | EmptyString => None
  | String c s' =>
      if Ascii.eqb c nl then None
      else match match_dotplus_py s' with
           | Some g => Some (String c g)
           | None => if String.prefix ".py" s' then Some (String c EmptyString) else None
           end
  end.

(** [" " * n], also what ["".join([" " for _ in range(n)])] builds. *)
Fixpoint spaces (n : nat) : string :=
  match n with
  | O => EmptyString
  | S k => String space (spaces k)
  end.

(** [enumerate(l)]. *)
Definition enumerate {A : Type} (l : list A) : list (nat * A) :=
  combine (seq 0 (List.length l)) l.

End Py.

(** ** The Doc Extractor (lines 44-58) *)

Definition extract_doc_title (str : string) : result string :=
  doc_title <- Py.getitem (Py.split "===" str) 0 ;;
  if (0 <? String.length doc_title)%nat then
    let doc_title :=
      if Py.starts_with_newline doc_title then Py.drop_first doc_title else doc_title in
    c <- Py.last doc_title ;;
    if Ascii.eqb c Py.nl then Ok (Py.drop_last doc_title) else Ok doc_title
  else Ok doc_title.

(** ** The Text Layout Helper (lines 81-135) *)

Definition INLINE_DOC_CHARS : Z := 70.

(** The body of the loop of [multiple_lines]; the state is the list of
    finished lines and the line being built. *)
Definition wrap_word (line_length : Z) (st : list string * string) (word : string)
  : list string * string :=
  let '(lines, line) := st in
  let candidate := if String.eqb line "" then word else line ++ " " ++ word in
  if (Z.of_nat (String.length candidate) <? line_length)%Z
  then (lines, candidate)
  else ((lines ++ [line])%list, word).

Definition multiple_lines (text : string) (line_length : Z) : list string :=
  let '(lines, line) := fold_left (wrap_word line_length) (Py.split " " text) ([], "") in
  let lines := if (0 <? String.length line)%nat then (lines ++ [line])%list else lines in
  let lines := if (List.length lines =? 0)%nat then (lines ++ [""])%list else lines in
  lines.

Definition longest_text (text_list : list string) : Z :=
  fold_left
    (fun max_length text =>
       if (max_length <? Z.of_nat (String.length text))%Z
       then Z.of_nat (String.length text)
       else max_length)
    text_list 0%Z.

Definition adjusted_legth_text (text : string) (length : Z) : string :=
  if (Z.of_nat (String.length text) <? length)%Z
  then text ++ Py.spaces (Z.to_nat (length - Z.of_nat (String.length text)))
  else text.

(** ** The Script Enumerator (lines 18-41) *)

(** An entry of [os.listdir(base_path)] with the answer of
    [os.path.isfile] for it. *)
Record dirent : Type := { d_name : string; d_isfile : bool }.

(** What one iteration of the loop yields for [item]. *)
Definition import_names_of (item : dirent) : list string :=
  let name := d_name item in
  if String.eqb name "may.bat" || String.eqb name "may.py" || String.eqb name "__pycache__"
  then []
  else if d_isfile item
       then match Py.match_dotplus_py name with
            | Some stem => [stem]
            | None => []
            end
       else [name].

(** [@iterated] collects what the generator yields into a list. *)
Definition get_import_names (listing : list dirent) : list string :=
  flat_map import_names_of listing.

(** ** Processes: imports, calls and output *)

(** What a run is made of.  [EvImport name] is the import of [name] as a
    whole: whatever the top-level code of the module does while it is
    imported, what it writes included, belongs to this event and is not
    told apart.  [EvEnter name args] is the call of the [main] of [name]
    with [args].  [EvStdout text] is [text] written to standard output by
    the program itself or by the [main] of a script. *)
Inductive event : Type :=
| EvImport (name : string)
| EvEnter (name : string) (args : list string)
| EvStdout (text : string).

(** A run: the events in the order they happened, and a value or the
    exception that ended the run. *)
Definition proc (A : Type) : Type := (list event * result A)%type.

Definition ret {A : Type} (a : A) : proc A := ([], Ok a).

Definition bind {A B : Type} (m : proc A) (k : A -> proc B) : proc B :=
  match m with
  | (tr, Ok a) => let '(tr', r) := k a in ((tr ++ tr')%list, r)
  | (tr, Raise e) => (tr, Raise e)
  end.

Notation "x <<- m ;; k" := (bind m (fun x => k))
  (at level 61, m at next level, right associativity).

Definition lift {A : Type} (r : result A) : proc A := ([], r).

(** [try: body / except ModuleNotFoundError: handler]. *)
Definition try_except_ModuleNotFoundError {A : Type} (body handler : proc A) : proc A :=
  match body with
  | (tr, Raise ModuleNotFoundError) => let '(tr', r) := handler in ((tr ++ tr')%list, r)
  | _ => body
  end.

(** [print(s)]. *)
Definition print (s : string) : proc unit := ([EvStdout (s ++ Py.NL)], Ok tt).

(** A loaded module: its [__doc__] and, when it defines one, its [main],
    given by what it writes to standard output and how it ends. *)
Record module : Type := {
  mod_doc : option string;
  mod_main : option (list string -> list string * result unit)
}.

(** What the program finds around it: the directory it sits in, and what
    importing a name gives. *)
Record environment : Type := {
  listdir : list dirent;
  import_module : string -> result module
}.

(** [doc if doc else ""]. *)
Definition doc_or_empty (doc : option string) : string :=
  match doc with
  | Some d => d
  | None => ""
  end.

Record descriptor : Type := { name : string; title : string }.

Section Program.

Variable env : environment.

(** [__import__(name)]. *)
Definition import_ (nm : string) : proc module :=
  ([EvImport nm], import_module env nm).

(** [module.main(args)]. *)
Definition call_main (nm : string) (m : module) (args : list string) : proc unit :=
  match mod_main m with
  | None => lift (Raise AttributeError)
  | Some f => let '(out, r) := f args in (EvEnter nm args :: map EvStdout out, r)
  end.

(** *** The Quick-Doc Collector (lines 61-78) *)

(** One iteration of the loop: what it yields. *)
Definition quick_doc_of (nm : string) : proc (list descriptor) :=
  try_except_ModuleNotFoundError
    (m <<- import_ nm ;;
     let doc := mod_doc m in
     t <<- lift (extract_doc_title (doc_or_empty doc)) ;;
     ret [ {| name := nm; title := t |} ])
    (ret []).

Fixpoint get_quick_doc (names : list string) : proc (list descriptor) :=
  match names with
  | [] => ret []
  | nm :: names' =>
      items <<- quick_doc_of nm ;;
      rest <<- get_quick_doc names' ;;
      ret (items ++ rest)%list
  end.

(** *** The Help Renderer (lines 138-172) *)

(** [" {}\t{}\n".format(field, line)]. *)
Definition format_row (field line : string) : string :=
  " " ++ field ++ Py.TAB ++ line ++ Py.NL.

Definition available_scripts : proc string :=
  let script_names := get_import_names (listdir env) in
  let max_length := longest_text script_names in
  data <<- get_quick_doc script_names ;;
  ret (fold_left
         (fun res item =>
            fold_left
              (fun res (il : nat * string) =>
                 let '(i, line) := il in
                 if (i =? 0)%nat
                 then res ++ format_row (adjusted_legth_text (name item) max_length) line
                 else res ++ format_row (adjusted_legth_text "" max_length) line)
              (Py.enumerate (multiple_lines (title item) INLINE_DOC_CHARS))
              res)
         data "").

Definition general_help : proc string :=
  listing <<- available_scripts ;;
  ret ("This tool is a generic script manager that acts as a controller of scripts of different"
         ++ Py.NL ++
       "kinds." ++ Py.NL ++
       " may <script name> --help" ++ Py.TAB ++ "Quick help and parameters description" ++ Py.NL ++
       " may manual <script name>" ++ Py.TAB ++ "Read the full manual of this script" ++ Py.NL ++
       Py.TAB ++ Py.NL ++
       "Below, a list of the available scripts:" ++ Py.NL ++
       Py.NL ++
       listing ++ Py.NL ++
       Py.NL).

(** *** The Dispatcher (lines 175-195) *)

Definition not_found_message : string := "ERROR: Script not found".

(** [sys.argv[i]] where the program has checked the length before. *)
Definition argv_at (argv : list string) (i : nat) : proc string :=
  lift (Py.getitem argv i).

Definition main (argv : list string) : proc unit :=
  if (List.length argv <=? 1)%nat then
    help <<- general_help ;;
    print help
  else
    arg1 <<- argv_at argv 1 ;;
    if String.eqb arg1 "manual" && (List.length argv =? 3)%nat then
      try_except_ModuleNotFoundError
        (arg2 <<- argv_at argv 2 ;;
         m <<- import_ arg2 ;;
         let doc := mod_doc m in
         print (doc_or_empty doc))
        (print not_found_message)
    else
      try_except_ModuleNotFoundError
        (let args := skipn 2 argv in
         arg1 <<- argv_at argv 1 ;;
         m <<- import_ arg1 ;;
         call_main arg1 m args)
        (print not_found_message).

End Program.

(** ** What the specification says, in its own words

    These definitions follow the wording of the specification; the theorems
    below compare them with the program. *)

(** The text before the first occurrence of [sep], the whole text when
    [sep] does not occur. *)
Fixpoint before_first (sep s : string) : string :=
  match s with
  | EmptyString => EmptyString
  | String c s' => if String.prefix sep s then EmptyString else String c (before_first sep s')
  end.

(** One leading newline removed if present. *)
Definition strip_leading_newline (s : string) : string :=
  match s with
  | String c s' => if Ascii.eqb c Py.nl then s' else s
  | EmptyString => EmptyString
  end.

(** One trailing newline removed if present. *)
Fixpoint strip_trailing_newline (s : string) : string :=
  match s with
  | EmptyString => EmptyString
  | String c EmptyString => if Ascii.eqb c Py.nl then EmptyString else s
  | String c s' => String c (strip_trailing_newline s')
  end.

(** The three names the enumerator passes over. *)
Definition reserved (nm : string) : Prop :=
  nm = "may.bat" \/ nm = "may.py" \/ nm = "__pycache__".

(** No character of [s] is a newline. *)
Fixpoint no_newline (s : string) : Prop :=
  match s with
  | EmptyString => True
  | String c s' => c <> Py.nl /\ no_newline s'
  end.

(** The descriptor the collector is to emit for a name: one for a name
    that resolves, with the title of its documentation, none otherwise. *)
Definition descriptors_of (env : environment) (nm : string) : list descriptor :=
  match import_module env nm with
  | Ok m =>
      [ {| name := nm;
           title := strip_trailing_newline
                      (strip_leading_newline
                         (before_first "===" (doc_or_empty (mod_doc m)))) |} ]
  | Raise _ => []
  end.

(** The rows of the help listing for one descriptor, for a name column
    [width] characters wide: the first segment of the wrapped title after
    the padded name, every further segment after a blank field. *)
Definition first_row (width : nat) (nm segment : string) : string :=
  " " ++ (nm ++ Py.spaces (width - String.length nm)) ++ Py.TAB ++ segment ++ Py.NL.

Definition continuation_row (width : nat) (segment : string) : string :=
  " " ++ Py.spaces width ++ Py.TAB ++ segment ++ Py.NL.

Definition listing_rows (width : nat) (d : descriptor) : list string :=
  match multiple_lines (title d) INLINE_DOC_CHARS with
  | [] => []
  | segment :: segments =>
      first_row width (name d) segment :: map (continuation_row width) segments
  end.

Definition concat_rows (rows : list string) : string :=
  fold_right String.append "" rows.

(** The rows of one descriptor without the newline that ends each. *)
Definition row_texts (width : nat) (d : descriptor) : list string :=
  match multiple_lines (title d) INLINE_DOC_CHARS with
  | [] => []
  | segment :: segments =>
      (" " ++ (name d ++ Py.spaces (width - String.length (name d))) ++ Py.TAB ++ segment)
        :: map (fun s => " " ++ Py.spaces width ++ Py.TAB ++ s) segments
  end.

(** The events that are imports. *)
Definition is_import (e : event) : bool :=
  match e with EvImport _ => true | _ => false end.

(** ** Sample surroundings, for the examples *)

Definition sample_listing : list dirent :=
  [ {| d_name := "foo.py"; d_isfile := true |};
    {| d_name := "may.py"; d_isfile := true |};
    {| d_name := "bar"; d_isfile := false |};
    {| d_name := "may.bat"; d_isfile := true |};
    {| d_name := "__pycache__"; d_isfile := false |} ].

Definition foo_title : string :=
  "Converts every file given on the command line, one after the other, and reports the totals".

(** [echo] prints each argument it receives; [foo] has documentation with
    a title longer than a line of the listing, a body and no [main]; [bar]
    has no documentation; [odd] has documentation that opens with the
    delimiter line; importing [broken] fails while it loads; no other name
    is found. *)
Definition sample_import (nm : string) : result module :=
  if String.eqb nm "echo" then
    Ok {| mod_doc := Some ("Prints its arguments" ++ Py.NL ++ "===" ++ Py.NL ++ "Usage: echo ...");
          mod_main := Some (fun args => (args, Ok tt)) |}
  else if String.eqb nm "foo" then
    Ok {| mod_doc := Some (Py.NL ++ foo_title ++ Py.NL ++ "===" ++ Py.NL ++ "Long text");
          mod_main := None |}
  else if String.eqb nm "bar" then
    Ok {| mod_doc := None; mod_main := None |}
  else if String.eqb nm "odd" then
    Ok {| mod_doc := Some (Py.NL ++ "===" ++ Py.NL ++ "Title" ++ Py.NL);
          mod_main := None |}
  else if String.eqb nm "broken" then
    Raise (OtherError "SyntaxError")
  else Raise ModuleNotFoundError.

Definition sample_env : environment :=
  {| listdir := sample_listing; import_module := sample_import |}.

(** A directory with one script, [tool], whose documentation has a title
    of two lines before the delimiter. *)
Definition two_line_title_env : environment :=
  {| listdir := [ {| d_name := "tool.py"; d_isfile := true |} ];
     import_module := fun nm =>
       if String.eqb nm "tool"
       then Ok {| mod_doc := Some ("Converts files" ++ Py.NL ++ "and reports totals" ++ Py.NL
                                     ++ "===" ++ Py.NL ++ "body");
                  mod_main := None |}
       else Raise ModuleNotFoundError |}.

(** ** Definitions for the further properties *)

(** No character of [s] is a space. *)
Fixpoint no_space (s : string) : Prop :=
  match s with
  | EmptyString => True
  | String c s' => c <> Py.space /\ no_space s'
  end.

(** The words of some lines, in order: the pieces between the spaces of
    each line, the empty ones left out. *)
Definition is_word (s : string) : bool := negb (String.eqb s "").

Definition words_of (lines : list string) : list string :=
  filter is_word (flat_map (Py.split " ") lines).

(** [stem] can stand for [(.+)] when the pattern is matched against [nm]:
    one or more characters other than a newline, with [.py] after them. *)
Definition py_stem (nm stem : string) : Prop :=
  stem <> "" /\ no_newline stem /\ exists rest, nm = stem ++ ".py" ++ rest.

Definition is_reserved (item : dirent) : bool :=
  String.eqb (d_name item) "may.bat" || String.eqb (d_name item) "may.py"
  || String.eqb (d_name item) "__pycache__".

(** The exception with which the collector stops at a name, if it does:
    a failure of the import other than not-found, or the failure of the
    title extraction on the documentation of the module. *)
Definition name_failure (env : environment) (nm : string) : option exn :=
  match import_module env nm with
  | Raise ModuleNotFoundError => None
  | Raise e => Some e
  | Ok m =>
      if String.eqb (before_first "===" (doc_or_empty (mod_doc m))) Py.NL
      then Some IndexError
      else None
  end.

(** Surroundings in which [convert] is found and has a [main] that writes
    a line and then fails to import a library it needs. *)
Definition convert_module : module :=
  {| mod_doc := None;
     mod_main := Some (fun _ => (["working"], Raise ModuleNotFoundError)) |}.

Definition convert_env : environment :=
  {| listdir := [ {| d_name := "convert.py"; d_isfile := true |} ];
     import_module := fun nm =>
       if String.eqb nm "convert" then Ok convert_module else Raise ModuleNotFoundError |}.

(** A directory with a script whose documentation opens with the
    delimiter line. *)
Definition odd_env : environment :=
  {| listdir := [ {| d_name := "echo.py"; d_isfile := true |};
                  {| d_name := "odd.py"; d_isfile := true |};
                  {| d_name := "bar"; d_isfile := false |} ];
     import_module := sample_import |}.

(** The help text up to the listing. *)
Definition usage_banner : string :=
  "This tool is a generic script manager that acts as a controller of scripts of different"
    ++ Py.NL ++
  "kinds." ++ Py.NL ++
  " may <script name> --help" ++ Py.TAB ++ "Quick help and parameters description" ++ Py.NL ++
  " may manual <script name>" ++ Py.TAB ++ "Read the full manual of this script" ++ Py.NL ++
  Py.TAB ++ Py.NL ++
  "Below, a list of the available scripts:" ++ Py.NL ++
  Py.NL.

(** * Properties *)

(** ** Strings *)

Lemma append_nil_r (s : string) : s ++ "" = s.
Proof. induction s as [|c s IH]; simpl; [reflexivity | now rewrite IH]. Qed.

Lemma append_assoc (a b c : string) : (a ++ b) ++ c = a ++ (b ++ c).
Proof. induction a as [|x a IH]; simpl; [reflexivity | now rewrite IH]. Qed.

Lemma length_append (a b : string) :
  String.length (a ++ b) = (String.length a + String.length b)%nat.
Proof. induction a as [|x a IH]; simpl; [reflexivity | now rewrite IH]. Qed.

Lemma length_spaces (n : nat) : String.length (Py.spaces n) = n.
Proof. induction n as [|n IH]; simpl; [reflexivity | now rewrite IH]. Qed.

Lemma prefix_append (p s : string) :
  String.prefix p s = true -> exists rest, s = p ++ rest.
Proof.
  revert s. induction p as [|a p IH]; intros s.
  - intros _. now exists s.
  - destruct s as [|b s]; cbn [String.prefix]; [discriminate|].
    destruct (ascii_dec a b) as [->|]; [|discriminate].
    intros H. destruct (IH _ H) as (rest & ->). now exists rest.
Qed.

Lemma split_from_not_nil (sep : string) (s : string) :
  forall skip, Py.split_from sep skip s <> [].
Proof.
  induction s as [|c s IH]; intros skip; cbn [Py.split_from].
  - discriminate.
  - destruct skip as [|k]; [|apply IH].
    destruct (String.prefix sep (String c s)); [discriminate|].
    destruct (Py.split_from sep 0 s); discriminate.
Qed.

(** ** The Doc Extractor *)

(** [before_first sep s] starts [s]; what follows it is nothing or starts
    with [sep]; and [sep] starts nowhere inside it. *)
Lemma before_first_is_first_occurrence (sep s : string) :
  exists rest,
    s = before_first sep s ++ rest
    /\ (rest = "" \/ String.prefix sep rest = true)
    /\ forall p q, before_first sep s = p ++ q -> q <> "" ->
                   String.prefix sep (q ++ rest) = false.
Proof.
  induction s as [|c s (rest & Hs & Hrest & Hnone)].
  - exists "". repeat split; [now left|]. intros [|] [|]; cbn; congruence.
  - cbn [before_first]. destruct (String.prefix sep (String c s)) eqn:P.
    + exists (String c s). repeat split; [now right|].
      intros [|] [|]; cbn; congruence.
    + exists rest. split; [cbn; now rewrite <- Hs|]. split; [exact Hrest|].
      intros [|x p] q E Hq; cbn [String.append] in E.
      * subst q. cbn [String.append]. now rewrite <- Hs.
      * inversion E; subst. now apply (Hnone p q).
Qed.

(** [split(sep)[0]] is the text before the first occurrence of [sep]. *)
Lemma split_first_piece (sep s : string) :
  Py.getitem (Py.split sep s) 0 = Ok (before_first sep s).
Proof.
  unfold Py.split. induction s as [|c s IH]; [reflexivity|].
  cbn [Py.split_from before_first].
  destruct (String.prefix sep (String c s)); [reflexivity|].
  destruct (Py.split_from sep 0 s) as [|p ps] eqn:E.
  - now apply split_from_not_nil in E.
  - unfold Py.getitem in *. simpl in *. now inversion IH.
Qed.

Lemma last_drop_last (s : string) (c : ascii) :
  Py.last s = Ok c -> s = Py.drop_last s ++ String c "".
Proof.
  induction s as [|x s IH]; simpl; [discriminate|].
  destruct s as [|y s].
  - intros H; now inversion H.
  - intros H. apply IH in H. now rewrite H at 1.
Qed.

Lemma last_raises_iff_empty (s : string) : Py.last s = Raise IndexError <-> s = "".
Proof.
  split; [|intros ->; reflexivity].
  induction s as [|x s IH]; [reflexivity|]. simpl.
  destruct s as [|y s]; [discriminate|]. intros H. now apply IH in H.
Qed.

Lemma strip_trailing_newline_last (s : string) :
  s <> "" ->
  exists c, Py.last s = Ok c /\
            strip_trailing_newline s = if Ascii.eqb c Py.nl then Py.drop_last s else s.
Proof.
  induction s as [|x s IH]; [congruence|]. intros _.
  destruct s as [|y s].
  - exists x. simpl. split; [reflexivity|]. now destruct (Ascii.eqb x Py.nl).
  - destruct IH as (c & Hl & Hs); [discriminate|].
    exists c. split; [exact Hl|].
    change (strip_trailing_newline (String x (String y s)))
      with (String x (strip_trailing_newline (String y s))).
    change (Py.drop_last (String x (String y s)))
      with (String x (Py.drop_last (String y s))).
    rewrite Hs. now destruct (Ascii.eqb c Py.nl).
Qed.

(** Away from the one shape of input on which it raises, the extractor
    returns the text before the delimiter with one leading and one trailing
    newline removed. *)
Lemma extract_doc_title_spec (str : string) :
  before_first "===" str <> Py.NL ->
  extract_doc_title str
  = Ok (strip_trailing_newline (strip_leading_newline (before_first "===" str))).
Proof.
  intros Hnl. unfold extract_doc_title.
  rewrite split_first_piece. cbn [res_bind].
  destruct (before_first "===" str) as [|c p] eqn:E; [reflexivity|].
  cbn [String.length Nat.ltb Nat.leb Py.starts_with_newline Py.drop_first
       Py.slice_from strip_leading_newline].
  assert (Hne : (if Ascii.eqb c Py.nl then p else String c p) <> "").
  { destruct (Ascii.eqb_spec c Py.nl) as [->|]; [|discriminate].
    intros ->. now apply Hnl. }
  destruct (strip_trailing_newline_last _ Hne) as (d & Hl & Hs).
  rewrite Hl, Hs. cbn [res_bind]. now destruct (Ascii.eqb d Py.nl).
Qed.

(** It raises exactly when the text before the delimiter is a lone
    newline. *)
Lemma extract_doc_title_raises_iff (str : string) :
  extract_doc_title str = Raise IndexError <-> before_first "===" str = Py.NL.
Proof.
  split.
  - intros H. destruct (string_dec (before_first "===" str) Py.NL) as [|Hn]; [assumption|].
    rewrite (extract_doc_title_spec _ Hn) in H. discriminate.
  - intros H. unfold extract_doc_title. rewrite split_first_piece, H. reflexivity.
Qed.

Lemma extract_doc_title_examples :
  extract_doc_title ("Title" ++ Py.NL ++ "===" ++ Py.NL ++ "body") = Ok "Title"
  /\ extract_doc_title "" = Ok ""
  /\ extract_doc_title (Py.NL ++ "Title" ++ Py.NL ++ "===x") = Ok "Title"
  /\ extract_doc_title "NoDelimiterHere" = Ok "NoDelimiterHere".
Proof. repeat split; reflexivity. Qed.

(** C1: the claim is that [extract_doc_title] returns a string on every
    input, the lone newline included.  On the lone newline the program
    strips the leading newline and then indexes the last character of the
    empty string that is left, which raises [IndexError]. *)
Theorem extract_doc_title_lone_newline_raises :
  extract_doc_title Py.NL = Raise IndexError.
Proof. reflexivity. Qed.

(** C7: the claim is that on every input [extract_doc_title] returns the
    text before the first [===] with one leading and one trailing newline
    removed.  When that text is a single newline, as in a documentation
    string that opens with a line of [===], the program raises
    [IndexError] where the claim gives the empty string. *)
Theorem extract_doc_title_newline_then_delimiter_raises :
  before_first "===" (Py.NL ++ "===" ++ Py.NL ++ "body") = Py.NL
  /\ strip_trailing_newline (strip_leading_newline Py.NL) = ""
  /\ extract_doc_title (Py.NL ++ "===" ++ Py.NL ++ "body") = Raise IndexError.
Proof. repeat split; reflexivity. Qed.

(** ** The Text Layout Helper *)

(** C8: [adjusted_legth_text s w] is [s] followed by spaces only, its
    length is the larger of [len s] and [w], and it is [s] itself when
    [s] is already at or beyond [w]. *)
Theorem adjusted_legth_text_pads_right (s : string) (w : Z) :
  (exists n, adjusted_legth_text s w = s ++ Py.spaces n)
  /\ Z.of_nat (String.length (adjusted_legth_text s w))
     = Z.max (Z.of_nat (String.length s)) w
  /\ ((w <= Z.of_nat (String.length s))%Z -> adjusted_legth_text s w = s).
Proof.
  unfold adjusted_legth_text.
  destruct (Z.ltb_spec (Z.of_nat (String.length s)) w) as [Hlt|Hge].
  - split; [eexists; reflexivity|]. split; [|lia].
    rewrite length_append, length_spaces. lia.
  - split; [exists 0%nat; simpl; now rewrite append_nil_r|]. split; [lia|reflexivity].
Qed.

Lemma adjusted_legth_text_pads_right_witness :
  adjusted_legth_text "echo" 4 = "echo" /\ adjusted_legth_text "longername" 4 = "longername".
Proof.
  split.
  - apply (adjusted_legth_text_pads_right "echo" 4). simpl. lia.
  - apply (adjusted_legth_text_pads_right "longername" 4). simpl. lia.
Defined.

(** C9: wrapping the empty text gives exactly one line, the empty one,
    whatever the width (zero and negative widths included). *)
Theorem multiple_lines_empty_text (w : Z) : multiple_lines "" w = [""].
Proof.
  unfold multiple_lines. cbn [Py.split Py.split_from fold_left wrap_word String.eqb].
  cbn [String.length Z.of_nat].
  destruct (0 <? w)%Z; reflexivity.
Qed.

(** *** Splitting on spaces and joining back *)

Lemma split_space_step (c : ascii) (s : string) :
  Py.split " " (String c s)
  = if Ascii.eqb c Py.space
    then "" :: Py.split " " s
    else match Py.split " " s with
         | piece :: pieces => String c piece :: pieces
         | [] => [String c ""]
         end.
Proof.
  unfold Py.split. cbn [Py.split_from String.prefix String.length Nat.sub].
  destruct (Ascii.eqb_spec c Py.space) as [->|Hc].
  - unfold Py.space. destruct (ascii_dec " " " ") as [_|N]; [|congruence].
    now destruct s.
  - destruct (ascii_dec " " c) as [E|_]; [|reflexivity].
    subst c. now contradiction Hc.
Qed.


Lemma join_cons (sep p : string) (ps : list string) :
  ps <> [] -> Py.join sep (p :: ps) = p ++ sep ++ Py.join sep ps.
Proof. destruct ps; [congruence | reflexivity]. Qed.

Lemma join_grow_first (sep : string) (c : ascii) (p : string) (ps : list string) :
  Py.join sep (String c p :: ps) = String c (Py.join sep (p :: ps)).
Proof. destruct ps; reflexivity. Qed.

Lemma slice_from_append (p s : string) : Py.slice_from (String.length p) (p ++ s) = s.
Proof. induction p as [|c p IH]; [now destruct s | exact IH]. Qed.

(** Joining the pieces with the separator gives the text back, from the
    point the splitting started at. *)
Lemma join_split_from (sep : string) (s : string) :
  sep <> "" ->
  forall skip, Py.join sep (Py.split_from sep skip s) = Py.slice_from skip s.
Proof.
  intros Hsep. induction s as [|c s IH]; intros skip.
  - now destruct skip.
  - destruct skip as [|k]; cbn [Py.split_from Py.slice_from]; [|apply IH].
    destruct (String.prefix sep (String c s)) eqn:P.
    + rewrite join_cons by apply split_from_not_nil. rewrite IH.
      apply prefix_append in P. destruct P as (rest & E).
      destruct sep as [|a sep']; [congruence|].
      cbn [String.append] in E. inversion E; subst.
      cbn [String.length Nat.sub]. rewrite Nat.sub_0_r, slice_from_append.
      reflexivity.
    + specialize (IH 0%nat). cbn [Py.slice_from] in IH.
      destruct (Py.split_from sep 0 s) as [|p ps] eqn:E.
      * now apply split_from_not_nil in E.
      * rewrite join_grow_first. now rewrite IH.
Qed.

Lemma join_split (sep s : string) : sep <> "" -> Py.join sep (Py.split sep s) = s.
Proof. intros Hsep. exact (join_split_from sep s Hsep 0). Qed.

Lemma join_split_space (s : string) : Py.join " " (Py.split " " s) = s.
Proof. apply join_split. discriminate. Qed.

(** Merging two neighbouring pieces with a space does not change the
    joined text. *)
Lemma join_merge (l : list string) (a b : string) (rest : list string) :
  Py.join " " (l ++ (a ++ " " ++ b) :: rest) = Py.join " " (l ++ a :: b :: rest).
Proof.
  induction l as [|x l IH].
  - cbn [app]. destruct rest as [|r rest].
    + reflexivity.
    + rewrite !join_cons by discriminate. now rewrite !append_assoc.
  - cbn [app]. rewrite !join_cons by (destruct l; discriminate). now rewrite IH.
Qed.

(** The loop of [multiple_lines] over words none of which is empty, once
    the line being built is not empty: the lines, joined, are the words,
    joined. *)
Lemma wrap_words_join (w : Z) (ws : list string) :
  Forall (fun word => word <> "") ws ->
  forall lines line,
    line <> "" ->
    exists lines' line',
      fold_left (wrap_word w) ws (lines, line) = (lines', line')
      /\ line' <> ""
      /\ Py.join " " (lines' ++ [line']) = Py.join " " (lines ++ line :: ws).
Proof.
  induction 1 as [|word ws Hword _ IH]; intros lines line Hline.
  - exists lines, line. repeat split; assumption.
  - cbn [fold_left]. unfold wrap_word at 2.
    apply String.eqb_neq in Hline as Hb. rewrite Hb.
    destruct (Z.of_nat (String.length (line ++ " " ++ word)) <? w)%Z.
    + destruct (IH lines (line ++ " " ++ word)) as (lines' & line' & Hf & Hne & Hj).
      { destruct line; [congruence | discriminate]. }
      exists lines', line'. rewrite Hf, Hj, join_merge. repeat split; assumption.
    + destruct (IH (lines ++ [line])%list word Hword) as (lines' & line' & Hf & Hne & Hj).
      exists lines', line'. rewrite Hf, Hj, <- app_assoc. repeat split; assumption.
Qed.

(** C2, as amended: when no space-separated word of the text is empty (the
    text has no leading, trailing or doubled space) and the first word is
    shorter than the width, the lines joined with single spaces are the
    text. *)
Theorem multiple_lines_join_restores_text (text : string) (w : Z) :
  Forall (fun word => word <> "") (Py.split " " text) ->
  (Z.of_nat (String.length (hd "" (Py.split " " text))) < w)%Z ->
  Py.join " " (multiple_lines text w) = text.
Proof.
  intros Hwords Hfirst. unfold multiple_lines.
  rewrite <- (join_split_space text) at 2.
  destruct (Py.split " " text) as [|first ws]; [reflexivity|].
  inversion Hwords as [|? ? Hne Hws]; subst.
  cbn [fold_left hd] in *. unfold wrap_word at 2. cbn [String.eqb].
  apply Z.ltb_lt in Hfirst. rewrite Hfirst.
  destruct (wrap_words_join w ws Hws [] first Hne) as (lines' & line' & Hf & Hl & Hj).
  rewrite Hf.
  assert (Hpos : (0 <? String.length line')%nat = true).
  { destruct line'; [congruence | reflexivity]. }
  rewrite Hpos.
  assert (Hlen : (List.length (lines' ++ [line']) =? 0)%nat = false).
  { rewrite length_app. simpl. apply Nat.eqb_neq. lia. }
  rewrite Hlen. exact Hj.
Qed.

Lemma multiple_lines_join_restores_text_witness :
  Py.join " " (multiple_lines "prints its arguments back" 10) = "prints its arguments back".
Proof.
  apply multiple_lines_join_restores_text.
  - vm_compute. repeat constructor; discriminate.
  - vm_compute. reflexivity.
Defined.

(** C2, as stated, fails.  A first word that does not fit the width makes
    the program flush the still empty line, so an empty line comes first
    and the joined text starts with a space that the text does not have.
    An empty word (a space that starts or ends the text, or follows
    another) is lost when it starts a line or when a line is flushed on
    it. *)
Lemma multiple_lines_join_differs_from_text :
  ("hello" <> "" /\ (1 <= 5)%Z
   /\ multiple_lines "hello" 5 = [""; "hello"]
   /\ Py.join " " (multiple_lines "hello" 5) <> "hello")
  /\ (" a" <> "" /\ (1 <= 70)%Z
      /\ multiple_lines " a" 70 = ["a"]
      /\ Py.join " " (multiple_lines " a" 70) <> " a")
  /\ ("ab  cd" <> "" /\ (1 <= 3)%Z
      /\ multiple_lines "ab  cd" 3 = ["ab"; "cd"]
      /\ Py.join " " (multiple_lines "ab  cd" 3) <> "ab  cd")
  /\ ("a " <> "" /\ (1 <= 2)%Z
      /\ multiple_lines "a " 2 = ["a"]
      /\ Py.join " " (multiple_lines "a " 2) <> "a ").
Proof.
  repeat match goal with
         | |- _ /\ _ => split
         | |- (_ <= _)%Z => lia
         | |- _ = _ => reflexivity
         | |- _ <> _ => discriminate
         end.
Qed.

(** ** The Script Enumerator *)

Lemma import_names_of_reserved (isfile : bool) :
  import_names_of {| d_name := "may.bat"; d_isfile := isfile |} = []
  /\ import_names_of {| d_name := "may.py"; d_isfile := isfile |} = []
  /\ import_names_of {| d_name := "__pycache__"; d_isfile := isfile |} = [].
Proof. repeat split; reflexivity. Qed.

Lemma reserved_eqb (nm : string) :
  ~ reserved nm ->
  String.eqb nm "may.bat" || String.eqb nm "may.py" || String.eqb nm "__pycache__" = false.
Proof.
  unfold reserved. intros H.
  destruct (String.eqb_spec nm "may.bat"); [tauto|].
  destruct (String.eqb_spec nm "may.py"); [tauto|].
  destruct (String.eqb_spec nm "__pycache__"); [tauto|reflexivity].
Qed.

(** An entry that is not a regular file gives its full name. *)
Lemma import_names_of_directory (nm : string) :
  ~ reserved nm -> import_names_of {| d_name := nm; d_isfile := false |} = [nm].
Proof. intros H. unfold import_names_of. cbn [d_name d_isfile]. now rewrite reserved_eqb. Qed.

(** The pattern applied to [stem.py] captures [stem]. *)
Lemma match_dotplus_py_stem (stem : string) :
  stem <> "" -> no_newline stem -> Py.match_dotplus_py (stem ++ ".py") = Some stem.
Proof.
  induction stem as [|c s IH]; [congruence|]. intros _ [Hc Hs].
  cbn [String.append Py.match_dotplus_py].
  apply Ascii.eqb_neq in Hc. rewrite Hc.
  destruct s as [|d s].
  - reflexivity.
  - now rewrite IH by (assumption || discriminate).
Qed.

(** A regular file named [stem.py] gives [stem]. *)
Lemma import_names_of_py_file (stem : string) :
  stem <> "" -> no_newline stem -> ~ reserved (stem ++ ".py") ->
  import_names_of {| d_name := stem ++ ".py"; d_isfile := true |} = [stem].
Proof.
  intros Hne Hnl Hr. unfold import_names_of. cbn [d_name d_isfile].
  now rewrite reserved_eqb, match_dotplus_py_stem.
Qed.

(** Whatever the pattern captures is followed by [.py] in the name, and by
    whatever comes after: the name need not end there. *)
Lemma match_dotplus_py_captures (s g : string) :
  Py.match_dotplus_py s = Some g ->
  g <> "" /\ exists rest, s = g ++ ".py" ++ rest.
Proof.
  revert g. induction s as [|c s IH]; intros g; cbn [Py.match_dotplus_py]; [discriminate|].
  destruct (Ascii.eqb c Py.nl); [discriminate|].
  destruct (Py.match_dotplus_py s) as [g'|].
  - intros H. inversion H; subst. destruct (IH g' eq_refl) as (_ & rest & ->).
    split; [discriminate|]. now exists rest.
  - destruct (String.prefix ".py" s) eqn:P; [|discriminate].
    intros H. inversion H; subst. split; [discriminate|].
    apply prefix_append in P. destruct P as (rest & ->). now exists rest.
Qed.

Lemma get_import_names_sample : get_import_names sample_listing = ["foo"; "bar"].
Proof. reflexivity. Qed.

(** C5: the claim is that a regular file gives a name exactly when it is
    named [stem.py], and nothing otherwise.  The pattern is not anchored at
    the end of the name, so a regular file whose name goes on after [.py]
    (a compiled [foo.pyc], a backup [notes.py.bak]) gives a name too. *)
Theorem get_import_names_takes_files_that_are_not_py :
  get_import_names [ {| d_name := "foo.pyc"; d_isfile := true |} ] = ["foo"]
  /\ get_import_names [ {| d_name := "notes.py.bak"; d_isfile := true |} ] = ["notes"].
Proof. split; reflexivity. Qed.

(** ** The Quick-Doc Collector *)

Section Collector.

Variable env : environment.

Lemma quick_doc_of_not_found (nm : string) :
  import_module env nm = Raise ModuleNotFoundError ->
  quick_doc_of env nm = ([EvImport nm], Ok []).
Proof. intros H. unfold quick_doc_of, import_, bind. now rewrite H. Qed.

Lemma quick_doc_of_load_failure (nm : string) (e : exn) :
  import_module env nm = Raise e -> e <> ModuleNotFoundError ->
  quick_doc_of env nm = ([EvImport nm], Raise e).
Proof.
  intros H He. unfold quick_doc_of, import_, bind. rewrite H.
  destruct e; [congruence | reflexivity ..].
Qed.

Lemma quick_doc_of_resolved (nm : string) (m : module) :
  import_module env nm = Ok m ->
  quick_doc_of env nm
  = match extract_doc_title (doc_or_empty (mod_doc m)) with
    | Ok t => ([EvImport nm], Ok [ {| name := nm; title := t |} ])
    | Raise e => ([EvImport nm], Raise IndexError)
    end.
Proof.
  intros H. unfold quick_doc_of, import_, bind, lift. rewrite H.
  destruct (extract_doc_title (doc_or_empty (mod_doc m))) as [t|e] eqn:E.
  - reflexivity.
  - destruct (string_dec (before_first "===" (doc_or_empty (mod_doc m))) Py.NL) as [Hn|Hn].
    + apply extract_doc_title_raises_iff in Hn. rewrite Hn in E. now inversion E.
    + rewrite (extract_doc_title_spec _ Hn) in E. discriminate.
Qed.

(** When every name either resolves to a module whose title can be
    extracted or is not found, the collector imports each name once, in
    order, and returns the descriptors of the names that resolve, in the
    order of the names. *)
Lemma get_quick_doc_lists_resolved_names (names : list string) :
  (forall nm m, In nm names -> import_module env nm = Ok m ->
                before_first "===" (doc_or_empty (mod_doc m)) <> Py.NL) ->
  (forall nm e, In nm names -> import_module env nm = Raise e ->
                e = ModuleNotFoundError) ->
  get_quick_doc env names
  = (map EvImport names, Ok (flat_map (descriptors_of env) names)).
Proof.
  induction names as [|nm names IH]; intros Hdoc Hfail; [reflexivity|].
  cbn [get_quick_doc map flat_map].
  rewrite IH by (intros; eauto using in_cons).
  destruct (import_module env nm) as [m|e] eqn:E.
  - rewrite (quick_doc_of_resolved nm m E).
    rewrite (extract_doc_title_spec _ (Hdoc nm m (in_eq _ _) E)).
    unfold descriptors_of at 2. rewrite E.
    unfold bind, ret. cbn [app]. now rewrite app_nil_r.
  - rewrite (Hfail nm e (in_eq _ _) E) in E.
    rewrite (quick_doc_of_not_found nm E).
    unfold descriptors_of at 2. rewrite E.
    unfold bind, ret. cbn [app]. now rewrite app_nil_r.
Qed.

(** A load failure other than not-found ends the listing with that
    failure, whatever was collected before. *)
Lemma get_quick_doc_load_failure_aborts (before after : list string) (nm : string) (e : exn) :
  (forall n m, In n before -> import_module env n = Ok m ->
               before_first "===" (doc_or_empty (mod_doc m)) <> Py.NL) ->
  (forall n e', In n before -> import_module env n = Raise e' ->
                e' = ModuleNotFoundError) ->
  import_module env nm = Raise e -> e <> ModuleNotFoundError ->
  get_quick_doc env (before ++ nm :: after)
  = (map EvImport (before ++ [nm]), Raise e).
Proof.
  intros Hdoc Hfail Hnm He.
  induction before as [|b before IH].
  - cbn [app get_quick_doc map]. now rewrite (quick_doc_of_load_failure nm e Hnm He).
  - cbn [app get_quick_doc map].
    rewrite IH by (intros; eauto using in_cons).
    destruct (import_module env b) as [m|e'] eqn:E.
    + rewrite (quick_doc_of_resolved b m E).
      rewrite (extract_doc_title_spec _ (Hdoc b m (in_eq _ _) E)). reflexivity.
    + rewrite (Hfail b e' (in_eq _ _) E) in E.
      rewrite (quick_doc_of_not_found b E). reflexivity.
Qed.

(** The collector never ends with the not-found failure. *)
Lemma get_quick_doc_catches_not_found (names : list string) :
  snd (get_quick_doc env names) <> Raise ModuleNotFoundError.
Proof.
  induction names as [|nm names IH]; [discriminate|].
  cbn [get_quick_doc].
  destruct (import_module env nm) as [m|e] eqn:E.
  - rewrite (quick_doc_of_resolved nm m E).
    destruct (extract_doc_title (doc_or_empty (mod_doc m))); [|discriminate].
    unfold bind at 1. destruct (get_quick_doc env names) as [tr [items|e]]; cbn in *;
      [discriminate | congruence].
  - destruct e.
    + rewrite (quick_doc_of_not_found nm E).
      unfold bind at 1. destruct (get_quick_doc env names) as [tr [items|e]]; cbn in *;
        [discriminate | congruence].
    + rewrite (quick_doc_of_load_failure nm _ E); discriminate.
    + rewrite (quick_doc_of_load_failure nm _ E); discriminate.
    + rewrite (quick_doc_of_load_failure nm _ E); discriminate.
Qed.

(** Every descriptor carries one of the names given. *)
Lemma get_quick_doc_names (names : list string) :
  forall tr data,
    get_quick_doc env names = (tr, Ok data) ->
    Forall (fun d => In (name d) names) data.
Proof.
  induction names as [|nm names IH]; intros tr data.
  - cbn. intros H. inversion H. constructor.
  - cbn [get_quick_doc].
    assert (Hq : exists tr1 r1, quick_doc_of env nm = (tr1, r1)
                 /\ forall items, r1 = Ok items -> Forall (fun d => name d = nm) items).
    { destruct (import_module env nm) as [m|e] eqn:E.
      - rewrite (quick_doc_of_resolved nm m E).
        destruct (extract_doc_title (doc_or_empty (mod_doc m))).
        + do 2 eexists. split; [reflexivity|]. intros items H. inversion H.
          repeat constructor.
        + do 2 eexists. split; [reflexivity|]. discriminate.
      - destruct e.
        + rewrite (quick_doc_of_not_found nm E). do 2 eexists.
          split; [reflexivity|]. intros items H. inversion H. constructor.
        + rewrite (quick_doc_of_load_failure nm _ E) by discriminate.
          do 2 eexists. split; [reflexivity|]. discriminate.
        + rewrite (quick_doc_of_load_failure nm _ E) by discriminate.
          do 2 eexists. split; [reflexivity|]. discriminate.
        + rewrite (quick_doc_of_load_failure nm _ E) by discriminate.
          do 2 eexists. split; [reflexivity|]. discriminate. }
    destruct Hq as (tr1 & r1 & -> & Hitems).
    destruct r1 as [items|e]; [|discriminate].
    unfold bind at 1.
    destruct (get_quick_doc env names) as [tr2 [rest|e]] eqn:G; [|discriminate].
    cbn. intros H. inversion H; subst. apply Forall_app. split.
    + eapply Forall_impl; [|apply (Hitems items eq_refl)].
      intros d ->. apply in_eq.
    + eapply Forall_impl; [|apply (IH tr2 rest eq_refl)].
      intros d Hd. now apply in_cons.
Qed.

End Collector.

(** C6: the claim is that the collector emits a descriptor for every name
    that resolves and that only a failure during loading ends the listing.
    A module that resolves but whose documentation opens with the delimiter
    line makes [extract_doc_title] raise inside the collector: no descriptor
    is emitted for it, and the listing ends with [IndexError]. *)
Theorem get_quick_doc_aborts_on_resolved_name :
  (exists m, import_module sample_env "odd" = Ok m)
  /\ get_quick_doc sample_env ["foo"; "odd"; "bar"]
     = ([EvImport "foo"; EvImport "odd"], Raise IndexError).
Proof. split; [eexists|]; reflexivity. Qed.

Lemma get_quick_doc_sample :
  get_quick_doc sample_env ["foo"; "missing"; "bar"; "echo"]
  = ([EvImport "foo"; EvImport "missing"; EvImport "bar"; EvImport "echo"],
     Ok [ {| name := "foo"; title := foo_title |};
          {| name := "bar"; title := "" |};
          {| name := "echo"; title := "Prints its arguments" |} ]).
Proof. reflexivity. Qed.

(** ** The Help Renderer *)

Lemma longest_text_bounds (l : list string) :
  forall acc,
    let f := fun (max_length : Z) (text : string) =>
               if (max_length <? Z.of_nat (String.length text))%Z
               then Z.of_nat (String.length text) else max_length in
    (acc <= fold_left f l acc)%Z
    /\ Forall (fun text => (Z.of_nat (String.length text) <= fold_left f l acc)%Z) l.
Proof.
  induction l as [|x l IH]; intros acc f.
  - split; [cbn; lia | constructor].
  - cbn [fold_left]. destruct (IH (f acc x)) as [Hacc Hall]. fold f in Hacc, Hall.
    assert (Hstep : (acc <= f acc x /\ Z.of_nat (String.length x) <= f acc x)%Z).
    { unfold f. destruct (Z.ltb_spec acc (Z.of_nat (String.length x))); lia. }
    split; [lia|]. constructor; [lia | exact Hall].
Qed.

(** No text of the list is longer than [longest_text] says. *)
Lemma longest_text_ge (l : list string) (text : string) :
  In text l -> (Z.of_nat (String.length text) <= longest_text l)%Z.
Proof.
  intros Hin. destruct (longest_text_bounds l 0%Z) as [_ Hall].
  rewrite Forall_forall in Hall. exact (Hall text Hin).
Qed.

Lemma longest_text_examples :
  longest_text [] = 0%Z /\ longest_text ["a"; "bb"; "c"] = 2%Z.
Proof. split; reflexivity. Qed.

(** Padding, written with truncated subtraction. *)
Lemma adjusted_legth_text_spaces (s : string) (w : Z) :
  adjusted_legth_text s w = s ++ Py.spaces (Z.to_nat w - String.length s).
Proof.
  unfold adjusted_legth_text.
  destruct (Z.ltb_spec (Z.of_nat (String.length s)) w) as [Hlt|Hge].
  - f_equal. f_equal. lia.
  - replace (Z.to_nat w - String.length s)%nat with 0%nat by lia.
    cbn. now rewrite append_nil_r.
Qed.

Lemma concat_rows_app (a b : list string) :
  concat_rows (a ++ b) = concat_rows a ++ concat_rows b.
Proof.
  induction a as [|x a IH]; [reflexivity|].
  cbn [app concat_rows fold_right]. fold (concat_rows (a ++ b)). fold (concat_rows a).
  now rewrite IH, append_assoc.
Qed.

Section Rows.

Variables (name_field blank_field : string).

Let add_row (res : string) (il : nat * string) : string :=
  let '(i, line) := il in
  if (i =? 0)%nat
  then res ++ format_row name_field line
  else res ++ format_row blank_field line.

(** The inner loop past its first round: only blank fields. *)
Lemma continuation_rows (segments : list string) :
  forall k res,
    fold_left add_row (combine (seq (S k) (List.length segments)) segments) res
    = res ++ concat_rows (map (format_row blank_field) segments).
Proof.
  induction segments as [|seg segments IH]; intros k res.
  - cbn. now rewrite append_nil_r.
  - cbn [List.length seq combine fold_left map]. rewrite IH.
    cbn [add_row Nat.eqb concat_rows fold_right].
    fold (concat_rows (map (format_row blank_field) segments)).
    now rewrite append_assoc.
Qed.

(** The inner loop: the name field on the first segment, blank fields on
    the others. *)
Lemma rows_of_descriptor (segments : list string) (res : string) :
  fold_left add_row (Py.enumerate segments) res
  = res ++ concat_rows
             (match segments with
              | [] => []
              | seg :: segs =>
                  format_row name_field seg :: map (format_row blank_field) segs
              end).
Proof.
  unfold Py.enumerate. destruct segments as [|seg segs].
  - cbn. now rewrite append_nil_r.
  - cbn [List.length seq combine fold_left]. rewrite continuation_rows.
    cbn [add_row Nat.eqb concat_rows fold_right].
    fold (concat_rows (map (format_row blank_field) segs)).
    now rewrite append_assoc.
Qed.

End Rows.

(** The outer loop of [available_scripts] builds the rows of the
    descriptors, one descriptor after the other. *)
Lemma listing_of_descriptors (max_length : Z) (data : list descriptor) :
  forall res,
    fold_left
      (fun res item =>
         fold_left
           (fun res (il : nat * string) =>
              let '(i, line) := il in
              if (i =? 0)%nat
              then res ++ format_row (adjusted_legth_text (name item) max_length) line
              else res ++ format_row (adjusted_legth_text "" max_length) line)
           (Py.enumerate (multiple_lines (title item) INLINE_DOC_CHARS))
           res)
      data res
    = res ++ concat_rows (flat_map (listing_rows (Z.to_nat max_length)) data).
Proof.
  induction data as [|d data IH]; intros res.
  - cbn. now rewrite append_nil_r.
  - cbn [fold_left flat_map]. rewrite IH, rows_of_descriptor.
    rewrite concat_rows_app, append_assoc.
    apply (f_equal (String.append res)).
    apply (f_equal (fun rows => rows ++ _)).
    apply (f_equal concat_rows).
    unfold listing_rows.
    destruct (multiple_lines (title d) INLINE_DOC_CHARS) as [|seg segs]; [reflexivity|].
    unfold first_row, format_row.
    rewrite (adjusted_legth_text_spaces (name d) max_length).
    apply (f_equal (cons _)).
    apply map_ext. intros s. unfold continuation_row.
    rewrite (adjusted_legth_text_spaces "" max_length). cbn [String.length String.append].
    now rewrite Nat.sub_0_r.
Qed.

Lemma no_newline_append (a b : string) :
  no_newline a -> no_newline b -> no_newline (a ++ b).
Proof.
  induction a as [|c a IH]; cbn [String.append no_newline]; [tauto|].
  intros [Hc Ha] Hb. split; [exact Hc | now apply IH].
Qed.

Lemma no_newline_spaces (n : nat) : no_newline (Py.spaces n).
Proof. induction n as [|n IH]; cbn; [exact I | split; [discriminate | exact IH]]. Qed.

Lemma split_space_no_newline (s : string) :
  no_newline s -> Forall no_newline (Py.split " " s).
Proof.
  induction s as [|c s IH]; [repeat constructor|]. intros [Hc Hs].
  specialize (IH Hs). rewrite split_space_step.
  destruct (Ascii.eqb c Py.space).
  - constructor; [exact I | exact IH].
  - destruct (Py.split " " s) as [|p ps]; [repeat constructor; assumption|].
    inversion IH; subst. constructor; [now split | assumption].
Qed.

Lemma wrap_words_no_newline (w : Z) (ws : list string) :
  Forall no_newline ws ->
  forall lines line,
    Forall no_newline lines -> no_newline line ->
    Forall no_newline (fst (fold_left (wrap_word w) ws (lines, line)))
    /\ no_newline (snd (fold_left (wrap_word w) ws (lines, line))).
Proof.
  induction 1 as [|word ws Hword _ IH]; intros lines line Hlines Hline.
  - now split.
  - cbn [fold_left]. unfold wrap_word at 2 4.
    destruct (Z.of_nat (String.length (if String.eqb line "" then word
                                       else line ++ " " ++ word)) <? w)%Z.
    + apply IH; [assumption|]. destruct (String.eqb line ""); [assumption|].
      apply no_newline_append; [assumption|].
      split; [discriminate | assumption].
    + apply IH; [|assumption]. apply Forall_app. split; [assumption | now constructor].
Qed.

(** A title without a newline is wrapped into segments without a
    newline. *)
Lemma multiple_lines_no_newline (text : string) (w : Z) :
  no_newline text -> Forall no_newline (multiple_lines text w).
Proof.
  intros Htext. unfold multiple_lines.
  destruct (wrap_words_no_newline w (Py.split " " text) (split_space_no_newline text Htext)
              [] "" (Forall_nil _) I) as [Hlines Hline].
  destruct (fold_left (wrap_word w) (Py.split " " text) ([], "")) as [lines line].
  cbn [fst snd] in Hlines, Hline.
  destruct (0 <? String.length line)%nat.
  - assert (Hlen : (List.length (lines ++ [line]) =? 0)%nat = false).
    { rewrite length_app. cbn. apply Nat.eqb_neq. lia. }
    rewrite Hlen. apply Forall_app. split; [assumption | now constructor].
  - destruct lines as [|l lines]; cbn [List.length Nat.eqb app]; [|assumption].
    repeat constructor.
Qed.

Lemma listing_rows_row_texts (width : nat) (d : descriptor) :
  listing_rows width d = map (fun line => line ++ Py.NL) (row_texts width d).
Proof.
  unfold listing_rows, row_texts, first_row, continuation_row.
  destruct (multiple_lines (title d) INLINE_DOC_CHARS) as [|segment segments];
    [reflexivity|].
  cbn [map]. rewrite map_map. f_equal.
  - cbn [String.append]. now rewrite !append_assoc.
  - apply map_ext. intros s. cbn [String.append]. now rewrite !append_assoc.
Qed.

Lemma row_texts_are_lines (width : nat) (d : descriptor) :
  no_newline (name d) -> no_newline (title d) ->
  Forall (fun line => no_newline line /\ exists rest, line = String " " rest)
         (row_texts width d).
Proof.
  intros Hname Htitle. unfold row_texts.
  pose proof (multiple_lines_no_newline (title d) INLINE_DOC_CHARS Htitle) as Hsegs.
  destruct (multiple_lines (title d) INLINE_DOC_CHARS) as [|segment segments];
    [constructor|].
  inversion Hsegs as [|? ? Hseg Hrest]; subst. constructor.
  - split; [|eexists; reflexivity].
    split; [discriminate|].
    apply (no_newline_append (name d ++ Py.spaces (width - String.length (name d)))
             (Py.TAB ++ segment)).
    + apply (no_newline_append (name d)); [assumption | apply no_newline_spaces].
    + split; [discriminate | assumption].
  - apply Forall_map. eapply Forall_impl; [|exact Hrest]. intros s Hs.
    split; [|eexists; reflexivity].
    split; [discriminate|].
    apply (no_newline_append (Py.spaces width) (Py.TAB ++ s)); [apply no_newline_spaces|].
    split; [discriminate | assumption].
Qed.

(** C10, as amended: when the collector returns, the help listing is the
    rows of the descriptors one after the other, one row for each segment
    of a wrapped title; the first row of a descriptor is one space, the
    name padded to the longest enumerated name, a tab and the first
    segment, every further row is one space, a blank field, a tab and the
    segment; the padded name and the blank field are both as wide as the
    longest enumerated name; every row starts with a space; and when no
    name and no title has a newline in it, the rows are the lines of the
    listing, so that every line starts with a space. *)
Theorem available_scripts_rows (env : environment) (tr : list event) (data : list descriptor) :
  get_quick_doc env (get_import_names (listdir env)) = (tr, Ok data) ->
  let width := Z.to_nat (longest_text (get_import_names (listdir env))) in
  available_scripts env = (tr, Ok (concat_rows (flat_map (listing_rows width) data)))
  /\ Forall (fun d =>
               String.length (name d ++ Py.spaces (width - String.length (name d))) = width
               /\ String.length (Py.spaces width) = width
               /\ exists segment segments,
                    multiple_lines (title d) INLINE_DOC_CHARS = segment :: segments
                    /\ listing_rows width d
                       = (" " ++ (name d ++ Py.spaces (width - String.length (name d)))
                              ++ Py.TAB ++ segment ++ Py.NL)
                           :: map (fun s => " " ++ Py.spaces width ++ Py.TAB ++ s ++ Py.NL)
                                segments)
            data
  /\ Forall (fun row => exists rest, row = String " " rest)
            (flat_map (listing_rows width) data)
  /\ (Forall (fun d => no_newline (name d) /\ no_newline (title d)) data ->
      exists lines,
        concat_rows (flat_map (listing_rows width) data)
        = concat_rows (map (fun line => line ++ Py.NL) lines)
        /\ Forall (fun line => no_newline line /\ exists rest, line = String " " rest)
                  lines).
Proof.
  intros Hdata width. split; [|split; [|split]].
  - unfold available_scripts. rewrite Hdata. unfold bind, ret.
    rewrite listing_of_descriptors. cbn [String.append]. now rewrite app_nil_r.
  - pose proof (get_quick_doc_names env _ tr data Hdata) as Hnames.
    eapply Forall_impl; [|exact Hnames]. intros d Hin.
    apply longest_text_ge in Hin.
    split; [rewrite length_append, length_spaces; subst width; lia|].
    split; [apply length_spaces|].
    unfold listing_rows.
    destruct (multiple_lines (title d) INLINE_DOC_CHARS) as [|segment segments] eqn:E.
    + exfalso. revert E. unfold multiple_lines.
      destruct (fold_left _ _ _) as [lines line].
      destruct (0 <? String.length line)%nat.
      * destruct lines; discriminate.
      * destruct lines; discriminate.
    + exists segment, segments. split; reflexivity.
  - apply Forall_flat_map. apply Forall_forall. intros d _.
    unfold listing_rows.
    destruct (multiple_lines (title d) INLINE_DOC_CHARS) as [|segment segments];
      constructor.
    + eexists. reflexivity.
    + apply Forall_map. apply Forall_forall. intros s _. eexists. reflexivity.
  - intros Hclean. exists (flat_map (row_texts width) data). split.
    + f_equal. clear Hdata Hclean. induction data as [|d data IH]; [reflexivity|].
      cbn [flat_map]. now rewrite map_app, IH, listing_rows_row_texts.
    + apply Forall_flat_map. eapply Forall_impl; [|exact Hclean].
      intros d [Hname Htitle]. now apply row_texts_are_lines.
Qed.

Lemma available_scripts_rows_witness :
  available_scripts sample_env
  = ([EvImport "foo"; EvImport "bar"],
     Ok (concat_rows
           (flat_map (listing_rows 3)
              [ {| name := "foo"; title := foo_title |}; {| name := "bar"; title := "" |} ]))).
Proof.
  exact (proj1 (available_scripts_rows sample_env
                  [EvImport "foo"; EvImport "bar"]
                  [ {| name := "foo"; title := foo_title |}; {| name := "bar"; title := "" |} ]
                  eq_refl)).
Defined.

(** C10, as stated, fails: a title that has a newline in it is put in the
    row as it is, so the listing has a line that starts in the middle of
    the title and not with a space. *)
Lemma available_scripts_line_without_leading_space :
  get_quick_doc two_line_title_env (get_import_names (listdir two_line_title_env))
  = ([EvImport "tool"],
     Ok [ {| name := "tool";
             title := "Converts files" ++ Py.NL ++ "and reports totals" |} ])
  /\ available_scripts two_line_title_env
     = ([EvImport "tool"],
        Ok (" tool" ++ Py.TAB ++ "Converts files" ++ Py.NL ++ "and reports totals" ++ Py.NL))
  /\ Py.split Py.NL
       (" tool" ++ Py.TAB ++ "Converts files" ++ Py.NL ++ "and reports totals" ++ Py.NL)
     = [ " tool" ++ Py.TAB ++ "Converts files"; "and reports totals"; "" ]
  /\ String.prefix " " "and reports totals" = false.
Proof. repeat split; reflexivity. Qed.

Lemma available_scripts_sample :
  available_scripts sample_env
  = ([EvImport "foo"; EvImport "bar"],
     Ok (" foo" ++ Py.TAB
           ++ "Converts every file given on the command line, one after the other," ++ Py.NL
         ++ "    " ++ Py.TAB ++ "and reports the totals" ++ Py.NL
         ++ " bar" ++ Py.TAB ++ Py.NL)).
Proof. reflexivity. Qed.

(** ** The Dispatcher *)

Lemma bind_lift_ok {A B : Type} (a : A) (k : A -> proc B) : bind (lift (Ok a)) k = k a.
Proof. unfold bind, lift. now destruct (k a). Qed.

Section Dispatcher.

Variable env : environment.

Lemma main_manual_mode (prog nm : string) :
  main env [prog; "manual"; nm]
  = try_except_ModuleNotFoundError
      (m <<- import_ env nm ;; print (doc_or_empty (mod_doc m)))
      (print not_found_message).
Proof.
  unfold main. cbn [List.length Nat.leb].
  unfold argv_at, Py.getitem. cbn [nth_error].
  rewrite bind_lift_ok. cbn [String.eqb Ascii.eqb Bool.eqb Nat.eqb andb].
  now rewrite bind_lift_ok.
Qed.

Lemma main_run_mode (prog script : string) (rest : list string) :
  (script = "manual" -> List.length rest <> 1%nat) ->
  main env (prog :: script :: rest)
  = try_except_ModuleNotFoundError
      (m <<- import_ env script ;; call_main script m rest)
      (print not_found_message).
Proof.
  intros Hrun. unfold main. cbn [List.length Nat.leb].
  unfold argv_at, Py.getitem. cbn [nth_error skipn].
  rewrite bind_lift_ok.
  assert (Hcond : String.eqb script "manual" && (S (S (List.length rest)) =? 3)%nat = false).
  { destruct (String.eqb_spec script "manual") as [E|]; [|reflexivity].
    cbn [andb]. apply Nat.eqb_neq. specialize (Hrun E). lia. }
  rewrite Hcond. now rewrite bind_lift_ok.
Qed.

Lemma get_quick_doc_only_imports (names : list string) :
  Forall (fun e => is_import e = true) (fst (get_quick_doc env names)).
Proof.
  induction names as [|nm names IH]; [constructor|].
  cbn [get_quick_doc].
  assert (Hq : exists r, quick_doc_of env nm = ([EvImport nm], r)).
  { destruct (import_module env nm) as [m|e] eqn:E.
    - rewrite (quick_doc_of_resolved env nm m E).
      destruct (extract_doc_title _); eexists; reflexivity.
    - destruct e;
        [rewrite (quick_doc_of_not_found env nm E)
        | rewrite (quick_doc_of_load_failure env nm _ E) by discriminate ..];
        eexists; reflexivity. }
  destruct Hq as (r & ->). destruct r as [items|e].
  - unfold bind at 1. destruct (get_quick_doc env names) as [tr [rest|e]]; cbn in *.
    + rewrite app_nil_r. now constructor.
    + now constructor.
  - cbn. now repeat constructor.
Qed.

End Dispatcher.

(** C3: with at least one user argument and outside the manual pattern,
    the first thing the dispatcher does is import the first user argument,
    and it imports nothing else; when that gives a module with a [main],
    the [main] is called with the argument list less its first two
    entries: the run is the import, the entry with those arguments, what
    the [main] writes when given those arguments, and it ends as that call
    ends (a [ModuleNotFoundError] out of the call being reported like a
    script that is not found). *)
Theorem main_calls_script_with_remaining_arguments
        (env : environment) (prog script : string) (rest : list string) :
  (script = "manual" -> List.length rest <> 1%nat) ->
  (exists tr, fst (main env (prog :: script :: rest)) = EvImport script :: tr
              /\ Forall (fun e => is_import e = false) tr)
  /\ (forall m f,
        import_module env script = Ok m -> mod_main m = Some f ->
        main env (prog :: script :: rest)
        = match snd (f rest) with
          | Raise ModuleNotFoundError =>
              ((EvImport script :: EvEnter script rest :: map EvStdout (fst (f rest)))
                 ++ [EvStdout ("ERROR: Script not found" ++ Py.NL)], Ok tt)%list
          | r => (EvImport script :: EvEnter script rest :: map EvStdout (fst (f rest)), r)
          end).
Proof.
  intros Hrun. rewrite (main_run_mode env prog script rest Hrun).
  unfold try_except_ModuleNotFoundError, bind, import_, call_main, lift, print.
  destruct (import_module env script) as [m|e].
  - destruct (mod_main m) as [f|] eqn:Hmain.
    + destruct (f rest) as [out r] eqn:F.
      assert (Hout : Forall (fun e => is_import e = false) (map EvStdout out)).
      { apply Forall_map, Forall_forall. reflexivity. }
      split.
      * destruct r as [[]|[]]; cbn [fst app];
          eexists; (split; [reflexivity|]); repeat constructor; try assumption.
        apply Forall_app. split; [assumption | now repeat constructor].
      * intros m' f' Hm Hf. inversion Hm; subst m'.
        rewrite Hmain in Hf. inversion Hf; subst f'. rewrite F. cbn [fst snd].
        destruct r as [[]|[]]; reflexivity.
    + split; [eexists; split; [reflexivity | constructor]|].
      intros m' f' Hm Hf. inversion Hm; subst m'. congruence.
  - split.
    + destruct e; cbn [fst app]; eexists; (split; [reflexivity|]); now repeat constructor.
    + intros m' f' Hm. discriminate.
Qed.

Lemma main_calls_script_with_remaining_arguments_witness :
  main sample_env ["may.py"; "echo"; "hello"]
  = ([EvImport "echo"; EvEnter "echo" ["hello"]; EvStdout "hello"], Ok tt)
  /\ (exists tr,
         fst (main sample_env ["may.py"; "manual"; "foo"; "extra"]) = EvImport "manual" :: tr
         /\ Forall (fun e => is_import e = false) tr).
Proof.
  split.
  - refine (proj2 (main_calls_script_with_remaining_arguments
                     sample_env "may.py" "echo" ["hello"] _)
              {| mod_doc := Some ("Prints its arguments" ++ Py.NL ++ "===" ++ Py.NL
                                    ++ "Usage: echo ...");
                 mod_main := Some (fun args => (args, Ok tt)) |}
              (fun args => (args, Ok tt)) eq_refl eq_refl).
    intros H. discriminate H.
  - refine (proj1 (main_calls_script_with_remaining_arguments
                     sample_env "may.py" "manual" ["foo"; "extra"] _)).
    intros _. simpl. lia.
Defined.

Lemma main_sample_runs :
  main sample_env ["may.py"; "echo"; "hello"]
  = ([EvImport "echo"; EvEnter "echo" ["hello"]; EvStdout "hello"], Ok tt)
  /\ main sample_env ["may.py"; "manual"; "foo"; "extra"]
     = ([EvImport "manual"; EvStdout ("ERROR: Script not found" ++ Py.NL)], Ok tt)
  /\ main sample_env ["may.py"; "foo"]
     = ([EvImport "foo"], Raise AttributeError)
  /\ main sample_env ["may.py"; "manual"; "bar"]
     = ([EvImport "bar"; EvStdout Py.NL], Ok tt).
Proof. repeat split; reflexivity. Qed.

(** C4: in manual mode and in run mode a not-found failure of the import
    becomes the one line [ERROR: Script not found] and the run ends
    normally; a manual-mode import that succeeds prints the documentation
    as it is, or an empty line when there is none; no run of the dispatcher
    ends with the not-found failure; and the help branch, where the
    collector drops the names that are not found, prints no such line. *)
Theorem main_reports_script_not_found (env : environment) (prog : string) :
  (forall nm,
      import_module env nm = Raise ModuleNotFoundError ->
      main env [prog; "manual"; nm]
      = ([EvImport nm; EvStdout ("ERROR: Script not found" ++ Py.NL)], Ok tt))
  /\ (forall nm m,
         import_module env nm = Ok m ->
         main env [prog; "manual"; nm]
         = ([EvImport nm;
             EvStdout (match mod_doc m with Some doc => doc | None => "" end ++ Py.NL)],
            Ok tt))
  /\ (forall script rest,
         (script = "manual" -> List.length rest <> 1%nat) ->
         import_module env script = Raise ModuleNotFoundError ->
         main env (prog :: script :: rest)
         = ([EvImport script; EvStdout ("ERROR: Script not found" ++ Py.NL)], Ok tt))
  /\ (forall argv, snd (main env argv) <> Raise ModuleNotFoundError)
  /\ (forall argv,
         (List.length argv <= 1)%nat ->
         Forall (fun e => e <> EvStdout ("ERROR: Script not found" ++ Py.NL))
                (fst (main env argv))).
Proof.
  split; [|split; [|split; [|split]]].
  - intros nm H. rewrite main_manual_mode.
    unfold try_except_ModuleNotFoundError, bind, import_. now rewrite H.
  - intros nm m H. rewrite main_manual_mode.
    unfold try_except_ModuleNotFoundError, bind, import_, print. rewrite H.
    reflexivity.
  - intros script rest Hrun H. rewrite (main_run_mode env prog script rest Hrun).
    unfold try_except_ModuleNotFoundError, bind, import_. now rewrite H.
  - intros argv. destruct argv as [|prog' [|arg1 rest]].
    + unfold main, general_help, available_scripts. cbn [List.length Nat.leb].
      pose proof (get_quick_doc_catches_not_found env (get_import_names (listdir env))) as H.
      destruct (get_quick_doc env (get_import_names (listdir env))) as [tr [data|e]];
        cbn in *; [discriminate | congruence].
    + unfold main, general_help, available_scripts. cbn [List.length Nat.leb].
      pose proof (get_quick_doc_catches_not_found env (get_import_names (listdir env))) as H.
      destruct (get_quick_doc env (get_import_names (listdir env))) as [tr [data|e]];
        cbn in *; [discriminate | congruence].
    + destruct (String.eqb_spec arg1 "manual") as [->|Hne].
      * destruct rest as [|nm [|x rest]].
        -- rewrite (main_run_mode env prog' "manual" []) by (intros _; discriminate).
           unfold try_except_ModuleNotFoundError, bind, import_, call_main, lift, print.
           destruct (import_module env "manual") as [m|[]]; try discriminate.
           destruct (mod_main m) as [f|]; [|discriminate].
           destruct (f []) as [out [[]|[]]]; discriminate.
        -- rewrite main_manual_mode.
           unfold try_except_ModuleNotFoundError, bind, import_, print.
           destruct (import_module env nm) as [m|[]]; discriminate.
        -- rewrite (main_run_mode env prog' "manual" (nm :: x :: rest))
             by (intros _; discriminate).
           unfold try_except_ModuleNotFoundError, bind, import_, call_main, lift, print.
           destruct (import_module env "manual") as [m|[]]; try discriminate.
           destruct (mod_main m) as [f|]; [|discriminate].
           destruct (f (nm :: x :: rest)) as [out [[]|[]]]; discriminate.
      * rewrite (main_run_mode env prog' arg1 rest) by (intros E; contradiction).
        unfold try_except_ModuleNotFoundError, bind, import_, call_main, lift, print.
        destruct (import_module env arg1) as [m|[]]; try discriminate.
        destruct (mod_main m) as [f|]; [|discriminate].
        destruct (f rest) as [out [[]|[]]]; discriminate.
  - intros argv Hlen.
    assert (Hmain : main env argv = (help <<- general_help env ;; print help)).
    { destruct argv as [|p [|a r]]; [reflexivity | reflexivity | cbn in Hlen; lia]. }
    rewrite Hmain. unfold general_help, available_scripts.
    pose proof (get_quick_doc_only_imports env (get_import_names (listdir env))) as H.
    destruct (get_quick_doc env (get_import_names (listdir env))) as [tr [data|e]];
      cbn [fst] in H.
    + unfold bind, ret, print. cbn [fst app]. rewrite !app_nil_r.
      apply Forall_app. split.
      * eapply Forall_impl; [|exact H]. intros e He ->. discriminate.
      * constructor; [|constructor]. intros E. inversion E.
    + unfold bind. cbn [fst].
      eapply Forall_impl; [|exact H]. intros e' He ->. discriminate.
Qed.

Lemma main_reports_script_not_found_witness :
  main sample_env ["may.py"; "manual"; "doesnotexist"]
  = ([EvImport "doesnotexist"; EvStdout ("ERROR: Script not found" ++ Py.NL)], Ok tt).
Proof.
  exact (proj1 (main_reports_script_not_found sample_env "may.py") "doesnotexist" eq_refl).
Defined.

(** * Further properties of the program *)

(** ** [longest_text] *)

Lemma longest_text_attained (l : list string) :
  forall acc,
    let f := fun (max_length : Z) (text : string) =>
               if (max_length <? Z.of_nat (String.length text))%Z
               then Z.of_nat (String.length text) else max_length in
    fold_left f l acc = acc
    \/ exists text, In text l /\ Z.of_nat (String.length text) = fold_left f l acc.
Proof.
  induction l as [|x l IH]; intros acc f; [now left|].
  cbn [fold_left]. destruct (IH (f acc x)) as [E | (text & Hin & E)]; fold f in E.
  - rewrite E. unfold f.
    destruct (Z.ltb_spec acc (Z.of_nat (String.length x))); [|now left].
    right. exists x. split; [apply in_eq | reflexivity].
  - right. exists text. split; [now apply in_cons | exact E].
Qed.

(** X1: [longest_text] returns the largest length in the list: no text of
    the list is longer, and the value is 0 for the empty list and the
    length of one of the texts otherwise. *)
Theorem longest_text_is_the_maximum_length (l : list string) :
  (forall text, In text l -> (Z.of_nat (String.length text) <= longest_text l)%Z)
  /\ ((l = [] /\ longest_text l = 0%Z)
      \/ exists text, In text l /\ Z.of_nat (String.length text) = longest_text l).
Proof.
  split; [intros text; apply longest_text_ge|].
  destruct l as [|x l]; [now left|]. right.
  destruct (longest_text_attained (x :: l) 0%Z) as [E | H]; [|exact H].
  exists x. split; [apply in_eq|].
  pose proof (longest_text_ge (x :: l) x (in_eq _ _)) as Hle.
  unfold longest_text in *. rewrite E in *. lia.
Qed.

Lemma longest_text_is_the_maximum_length_witness :
  (Z.of_nat (String.length "bb") <= longest_text ["a"; "bb"; "c"])%Z.
Proof.
  apply (proj1 (longest_text_is_the_maximum_length ["a"; "bb"; "c"])).
  simpl. tauto.
Defined.

(** ** [extract_doc_title] *)

Lemma extract_doc_title_returns_or_raises_aux (str : string) :
  (before_first "===" str = Py.NL /\ extract_doc_title str = Raise IndexError)
  \/ (before_first "===" str <> Py.NL
      /\ extract_doc_title str
         = Ok (strip_trailing_newline (strip_leading_newline (before_first "===" str)))).
Proof.
  destruct (string_dec (before_first "===" str) Py.NL) as [E|N].
  - left. split; [exact E | now apply extract_doc_title_raises_iff].
  - right. split; [exact N | now apply extract_doc_title_spec].
Qed.

(** X2: [extract_doc_title] raises [IndexError] exactly when the text
    before the first [===] is a lone newline; on every other input it
    returns that text with one leading newline and one trailing newline
    removed where present. *)
Theorem extract_doc_title_returns_or_raises (str : string) :
  (before_first "===" str = Py.NL /\ extract_doc_title str = Raise IndexError)
  \/ (before_first "===" str <> Py.NL
      /\ extract_doc_title str
         = Ok (strip_trailing_newline (strip_leading_newline (before_first "===" str)))).
Proof. exact (extract_doc_title_returns_or_raises_aux str). Qed.

Lemma strip_leading_newline_split (s : string) :
  exists pre, s = pre ++ strip_leading_newline s /\ (pre = "" \/ pre = Py.NL).
Proof.
  destruct s as [|c s]; [exists ""; split; [reflexivity | now left]|].
  cbn [strip_leading_newline]. destruct (Ascii.eqb_spec c Py.nl) as [->|_].
  - exists Py.NL. split; [reflexivity | now right].
  - exists "". split; [reflexivity | now left].
Qed.

Lemma strip_trailing_newline_split (s : string) :
  exists post, s = strip_trailing_newline s ++ post /\ (post = "" \/ post = Py.NL).
Proof.
  induction s as [|c s (post & E & Hpost)].
  - exists "". split; [reflexivity | now left].
  - destruct s as [|d s].
    + cbn [strip_trailing_newline]. destruct (Ascii.eqb_spec c Py.nl) as [->|_].
      * exists Py.NL. split; [reflexivity | now right].
      * exists "". split; [reflexivity | now left].
    + exists post. split; [|exact Hpost].
      change (strip_trailing_newline (String c (String d s)))
        with (String c (strip_trailing_newline (String d s))).
      cbn [String.append]. now rewrite <- E.
Qed.

Lemma prefix_append_r (p a b : string) :
  String.prefix p a = true -> String.prefix p (a ++ b) = true.
Proof.
  revert a. induction p as [|x p IH]; intros a.
  { intros _. destruct a; [destruct b|]; reflexivity. }
  destruct a as [|y a]; cbn [String.prefix String.append]; [discriminate|].
  destruct (ascii_dec x y); [apply IH | discriminate].
Qed.

(** X3: a title that [extract_doc_title] returns is a part of its input,
    unchanged: before it there is at most one newline, after it at most one
    newline and then nothing or the delimiter; and the delimiter occurs
    nowhere in the title. *)
Theorem extract_doc_title_is_part_of_input (str t : string) :
  extract_doc_title str = Ok t ->
  (exists pre post rest,
      str = pre ++ t ++ post ++ rest
      /\ (pre = "" \/ pre = Py.NL)
      /\ (post = "" \/ post = Py.NL)
      /\ (rest = "" \/ String.prefix "===" rest = true))
  /\ forall p q, t = p ++ q -> String.prefix "===" q = false.
Proof.
  intros Ht.
  destruct (extract_doc_title_returns_or_raises_aux str) as [[_ E]|[_ E]];
    rewrite E in Ht; [discriminate|]. injection Ht as Heq. clear E. subst t.
  destruct (before_first_is_first_occurrence "===" str) as (rest & Hstr & Hrest & Hnone).
  destruct (strip_leading_newline_split (before_first "===" str)) as (pre & Hb & Hpre).
  destruct (strip_trailing_newline_split (strip_leading_newline (before_first "===" str)))
    as (post & Hl & Hpost).
  split.
  - exists pre, post, rest. repeat split; try assumption.
    rewrite Hstr at 1. rewrite Hb at 1. rewrite Hl at 1.
    now rewrite !append_assoc.
  - intros p q Hq. destruct q as [|c q]; [reflexivity|].
    destruct (String.prefix "===" (String c q)) eqn:P; [|reflexivity].
    assert (Hsplit : before_first "===" str = (pre ++ p) ++ (String c q ++ post)).
    { rewrite Hb at 1. rewrite Hl at 1. rewrite Hq. now rewrite !append_assoc. }
    specialize (Hnone _ _ Hsplit). rewrite append_assoc in Hnone.
    rewrite (prefix_append_r _ _ (post ++ rest) P) in Hnone.
    apply Hnone. discriminate.
Qed.

Lemma extract_doc_title_is_part_of_input_witness :
  exists pre post rest,
    Py.NL ++ "Title" ++ Py.NL ++ "===x" = pre ++ "Title" ++ post ++ rest
    /\ (pre = "" \/ pre = Py.NL)
    /\ (post = "" \/ post = Py.NL)
    /\ (rest = "" \/ String.prefix "===" rest = true).
Proof.
  exact (proj1 (extract_doc_title_is_part_of_input
                  (Py.NL ++ "Title" ++ Py.NL ++ "===x") "Title" eq_refl)).
Defined.

(** ** [get_import_names] *)

Lemma prefix_append_self (p rest : string) : String.prefix p (p ++ rest) = true.
Proof.
  induction p as [|a p IH]; cbn [String.append String.prefix].
  - now destruct rest.
  - destruct (ascii_dec a a); [exact IH | congruence].
Qed.

Lemma py_stem_cons (c : ascii) (s stem : string) :
  py_stem (String c s) stem ->
  c <> Py.nl
  /\ ((stem = String c "" /\ String.prefix ".py" s = true)
      \/ exists stem', stem = String c stem' /\ py_stem s stem').
Proof.
  intros (Hne & Hnl & rest & E).
  destruct stem as [|x stem]; [congruence|].
  cbn [String.append] in E. injection E as -> E. destruct Hnl as [Hx Hnl].
  split; [exact Hx|].
  destruct stem as [|y stem].
  - left. split; [reflexivity|]. subst s. apply (prefix_append_self ".py").
  - right. exists (String y stem). split; [reflexivity|].
    split; [discriminate|]. split; [exact Hnl|]. now exists rest.
Qed.

(** What the pattern captures is the longest text that can stand for
    [(.+)]; it captures nothing exactly when no text can. *)
Lemma match_dotplus_py_longest (s : string) :
  match Py.match_dotplus_py s with
  | Some g =>
      py_stem s g
      /\ forall stem, py_stem s stem -> (String.length stem <= String.length g)%nat
  | None => forall stem, ~ py_stem s stem
  end.
Proof.
  induction s as [|c s IH]; cbn [Py.match_dotplus_py].
  - intros stem (Hne & _ & rest & E). destruct stem; [congruence | discriminate].
  - destruct (Ascii.eqb_spec c Py.nl) as [->|Hc].
    { intros stem H. apply py_stem_cons in H. now destruct H. }
    destruct (Py.match_dotplus_py s) as [g|].
    + destruct IH as [(Hne & Hnl & rest & E) Hmax]. split.
      * split; [discriminate|]. split; [now split|].
        exists rest. change (String c s = String c (g ++ ".py" ++ rest)). now rewrite <- E.
      * intros stem H. apply py_stem_cons in H.
        destruct H as [_ [[-> _] | (stem' & -> & H)]]; cbn [String.length]; [lia|].
        apply Hmax in H. lia.
    + destruct (String.prefix ".py" s) eqn:P.
      * split.
        -- split; [discriminate|]. split; [now split|].
           apply prefix_append in P. destruct P as (rest & ->). now exists rest.
        -- intros stem H. apply py_stem_cons in H.
           destruct H as [_ [[-> _] | (stem' & -> & H)]]; [cbn; lia|].
           now apply IH in H.
      * intros stem H. apply py_stem_cons in H.
        destruct H as [_ [[_ H] | (stem' & _ & H)]]; [congruence|].
        now apply IH in H.
Qed.

(** X4: for a regular file whose name is not one of the three reserved
    ones, the enumerator gives the longest text of one or more characters
    other than a newline that is followed by [.py] in the name, wherever in
    the name that is; it gives nothing exactly when the name has no such
    text. *)
Theorem get_import_names_of_regular_file (nm : string) :
  ~ reserved nm ->
  (exists stem,
      get_import_names [ {| d_name := nm; d_isfile := true |} ] = [stem]
      /\ py_stem nm stem
      /\ forall stem', py_stem nm stem' -> (String.length stem' <= String.length stem)%nat)
  \/ (get_import_names [ {| d_name := nm; d_isfile := true |} ] = []
      /\ forall stem', ~ py_stem nm stem').
Proof.
  intros Hr. unfold get_import_names. cbn [flat_map]. rewrite app_nil_r.
  unfold import_names_of. cbn [d_name d_isfile]. rewrite (reserved_eqb nm Hr).
  pose proof (match_dotplus_py_longest nm) as H.
  destruct (Py.match_dotplus_py nm) as [g|].
  - left. exists g. destruct H as [Hs Hmax]. repeat split; try assumption; apply Hs.
  - right. split; [reflexivity | exact H].
Qed.

Lemma get_import_names_of_regular_file_witness :
  (exists stem,
      get_import_names [ {| d_name := "backup.py.py~"; d_isfile := true |} ] = [stem]
      /\ py_stem "backup.py.py~" stem
      /\ forall stem', py_stem "backup.py.py~" stem'
                       -> (String.length stem' <= String.length stem)%nat)
  \/ (get_import_names [ {| d_name := "backup.py.py~"; d_isfile := true |} ] = []
      /\ forall stem', ~ py_stem "backup.py.py~" stem').
Proof.
  apply (get_import_names_of_regular_file "backup.py.py~").
  unfold reserved. intros [H|[H|H]]; discriminate H.
Defined.

Lemma import_names_of_length (item : dirent) :
  (List.length (import_names_of item) <= 1)%nat.
Proof.
  unfold import_names_of.
  destruct (_ || _); [cbn; lia|].
  destruct (d_isfile item); [|cbn; lia].
  destruct (Py.match_dotplus_py (d_name item)); cbn; lia.
Qed.

(** X5: the enumerator gives at most one name per entry of the directory,
    and the entries named [may.bat], [may.py] and [__pycache__] give
    nothing wherever they stand in the listing and whatever their kind:
    taking them out of the listing does not change the result. *)
Theorem get_import_names_skips_reserved_entries (listing : list dirent) :
  (List.length (get_import_names listing) <= List.length listing)%nat
  /\ get_import_names (filter (fun item => negb (is_reserved item)) listing)
     = get_import_names listing.
Proof.
  unfold get_import_names. induction listing as [|item listing [IHlen IHeq]].
  - split; reflexivity.
  - cbn [flat_map filter List.length]. rewrite length_app. split.
    + pose proof (import_names_of_length item). lia.
    + destruct (is_reserved item) eqn:R; cbn [negb].
      * rewrite IHeq. unfold import_names_of. unfold is_reserved in R. now rewrite R.
      * cbn [flat_map]. now rewrite IHeq.
Qed.

(** X6: in a listing without regular files the names are the names of the
    entries that are not reserved, in the order of the listing: a folder is
    taken whether or not it can be imported. *)
Theorem get_import_names_of_folders (listing : list dirent) :
  Forall (fun item => d_isfile item = false) listing ->
  get_import_names listing
  = map d_name (filter (fun item => negb (is_reserved item)) listing).
Proof.
  unfold get_import_names. induction 1 as [|item listing Hdir _ IH]; [reflexivity|].
  cbn [flat_map filter]. rewrite IH. unfold import_names_of, is_reserved.
  rewrite Hdir. now destruct (_ || _).
Qed.

Lemma get_import_names_of_folders_witness :
  get_import_names
    [ {| d_name := "tools"; d_isfile := false |};
      {| d_name := "__pycache__"; d_isfile := false |};
      {| d_name := "notes.py"; d_isfile := false |} ]
  = ["tools"; "notes.py"].
Proof.
  apply (get_import_names_of_folders
           [ {| d_name := "tools"; d_isfile := false |};
             {| d_name := "__pycache__"; d_isfile := false |};
             {| d_name := "notes.py"; d_isfile := false |} ]).
  repeat constructor.
Defined.

(** ** [get_quick_doc] *)

Lemma quick_doc_of_no_failure (env : environment) (nm : string) :
  name_failure env nm = None ->
  quick_doc_of env nm = ([EvImport nm], Ok (descriptors_of env nm)).
Proof.
  unfold name_failure, descriptors_of. intros H.
  destruct (import_module env nm) as [m|e] eqn:E.
  - rewrite (quick_doc_of_resolved env nm m E).
    destruct (String.eqb_spec (before_first "===" (doc_or_empty (mod_doc m))) Py.NL)
      as [|Hn]; [discriminate|].
    now rewrite (extract_doc_title_spec _ Hn).
  - destruct e; try discriminate. now apply quick_doc_of_not_found.
Qed.

Lemma quick_doc_of_failure (env : environment) (nm : string) (e : exn) :
  name_failure env nm = Some e ->
  quick_doc_of env nm = ([EvImport nm], Raise e).
Proof.
  unfold name_failure. intros H.
  destruct (import_module env nm) as [m|e'] eqn:E.
  - rewrite (quick_doc_of_resolved env nm m E).
    destruct (String.eqb_spec (before_first "===" (doc_or_empty (mod_doc m))) Py.NL)
      as [Hn|]; [|discriminate].
    apply extract_doc_title_raises_iff in Hn. rewrite Hn. congruence.
  - destruct e'; try discriminate; injection H as <-;
      now apply quick_doc_of_load_failure.
Qed.

Lemma get_quick_doc_cons_no_failure (env : environment) (nm : string) (names : list string) :
  name_failure env nm = None ->
  get_quick_doc env (nm :: names)
  = match get_quick_doc env names with
    | (tr, Ok rest) => (EvImport nm :: tr, Ok (descriptors_of env nm ++ rest)%list)
    | (tr, Raise e) => (EvImport nm :: tr, Raise e)
    end.
Proof.
  intros H. cbn [get_quick_doc]. rewrite (quick_doc_of_no_failure env nm H).
  unfold bind, ret. destruct (get_quick_doc env names) as [tr [rest|e]]; cbn [app].
  - now rewrite app_nil_r.
  - reflexivity.
Qed.

Lemma get_quick_doc_no_failure (env : environment) (names : list string) :
  Forall (fun nm => name_failure env nm = None) names ->
  get_quick_doc env names
  = (map EvImport names, Ok (flat_map (descriptors_of env) names)).
Proof.
  induction 1 as [|nm names Hnm _ IH]; [reflexivity|].
  rewrite (get_quick_doc_cons_no_failure env nm names Hnm), IH. reflexivity.
Qed.

Lemma get_quick_doc_first_failure
      (env : environment) (before after : list string) (nm : string) (e : exn) :
  Forall (fun n => name_failure env n = None) before ->
  name_failure env nm = Some e ->
  get_quick_doc env (before ++ nm :: after)
  = (map EvImport (before ++ [nm]), Raise e).
Proof.
  intros Hbefore Hnm. induction Hbefore as [|b before Hb _ IH].
  - cbn [app get_quick_doc map]. now rewrite (quick_doc_of_failure env nm e Hnm).
  - cbn [app]. rewrite (get_quick_doc_cons_no_failure env b _ Hb), IH. reflexivity.
Qed.

(** X7: when no name makes the import fail other than by not being found,
    and no documentation makes the title extraction fail, the collector
    imports every name once, in the order given, and returns the
    descriptors of the names that resolve, in that order; the names that
    are not found are left out. *)
Theorem get_quick_doc_returns_descriptors_in_order (env : environment) (names : list string) :
  Forall (fun nm => name_failure env nm = None) names ->
  get_quick_doc env names
  = (map EvImport names, Ok (flat_map (descriptors_of env) names)).
Proof. exact (get_quick_doc_no_failure env names). Qed.

Lemma get_quick_doc_returns_descriptors_in_order_witness :
  get_quick_doc sample_env ["echo"; "missing"; "bar"]
  = (map EvImport ["echo"; "missing"; "bar"],
     Ok (flat_map (descriptors_of sample_env) ["echo"; "missing"; "bar"])).
Proof.
  apply (get_quick_doc_returns_descriptors_in_order sample_env ["echo"; "missing"; "bar"]).
  repeat constructor.
Defined.

(** X8: the first name at which the import fails other than by not being
    found, or at which the title extraction fails, ends the collection with
    that exception: the names after it are not imported and the descriptors
    collected before it are lost. *)
Theorem get_quick_doc_stops_at_first_failure
        (env : environment) (before after : list string) (nm : string) (e : exn) :
  Forall (fun n => name_failure env n = None) before ->
  name_failure env nm = Some e ->
  get_quick_doc env (before ++ nm :: after)
  = (map EvImport (before ++ [nm]), Raise e).
Proof. exact (get_quick_doc_first_failure env before after nm e). Qed.

Lemma get_quick_doc_stops_at_first_failure_witness :
  get_quick_doc sample_env (["echo"; "missing"] ++ "broken" :: ["bar"])
  = (map EvImport (["echo"; "missing"] ++ ["broken"]), Raise (OtherError "SyntaxError")).
Proof.
  apply (get_quick_doc_stops_at_first_failure sample_env ["echo"; "missing"] ["bar"] "broken").
  - repeat constructor.
  - reflexivity.
Defined.

(** X9: whenever the collector returns a list, every name was imported
    once, in order, no name failed, and the list holds a descriptor for
    every name that resolves: a listing that is produced leaves out no
    script that can be loaded. *)
Theorem get_quick_doc_result_is_complete
        (env : environment) (names : list string) (tr : list event) (data : list descriptor) :
  get_quick_doc env names = (tr, Ok data) ->
  tr = map EvImport names
  /\ data = flat_map (descriptors_of env) names
  /\ Forall (fun nm => name_failure env nm = None) names.
Proof.
  revert tr data. induction names as [|nm names IH]; intros tr data H.
  - cbn in H. injection H as <- <-. repeat split. constructor.
  - destruct (name_failure env nm) as [e|] eqn:F.
    + cbn [get_quick_doc] in H. rewrite (quick_doc_of_failure env nm e F) in H.
      discriminate H.
    + rewrite (get_quick_doc_cons_no_failure env nm names F) in H.
      destruct (get_quick_doc env names) as [tr' [rest|e]]; [|discriminate H].
      injection H as <- <-. destruct (IH tr' rest eq_refl) as (-> & -> & Hall).
      repeat split. now constructor.
Qed.

Lemma get_quick_doc_result_is_complete_witness :
  [EvImport "foo"; EvImport "missing"; EvImport "bar"]
  = map EvImport ["foo"; "missing"; "bar"]
  /\ [ {| name := "foo"; title := foo_title |}; {| name := "bar"; title := "" |} ]
     = flat_map (descriptors_of sample_env) ["foo"; "missing"; "bar"]
  /\ Forall (fun nm => name_failure sample_env nm = None) ["foo"; "missing"; "bar"].
Proof.
  exact (get_quick_doc_result_is_complete sample_env ["foo"; "missing"; "bar"]
           [EvImport "foo"; EvImport "missing"; EvImport "bar"]
           [ {| name := "foo"; title := foo_title |}; {| name := "bar"; title := "" |} ]
           eq_refl).
Defined.

(** ** [multiple_lines] *)

(** The words that splitting on a space gives have no space in them. *)
Lemma split_space_no_space (s : string) : Forall no_space (Py.split " " s).
Proof.
  induction s as [|c s IH]; [repeat constructor|].
  rewrite split_space_step. destruct (Ascii.eqb_spec c Py.space) as [->|Hc].
  - constructor; [exact I | exact IH].
  - destruct (Py.split " " s) as [|p ps]; [repeat constructor; assumption|].
    inversion IH; subst. constructor; [now split | assumption].
Qed.

Lemma split_space_append (a b : string) :
  Py.split " " (a ++ " " ++ b) = (Py.split " " a ++ Py.split " " b)%list.
Proof.
  induction a as [|c a IH].
  - cbn [String.append]. now rewrite split_space_step.
  - cbn [String.append]. rewrite !split_space_step.
    change (String " " b) with (" " ++ b). rewrite IH.
    destruct (Ascii.eqb c Py.space); [reflexivity|].
    destruct (Py.split " " a) as [|p ps] eqn:E; [|reflexivity].
    now apply split_from_not_nil in E.
Qed.

(** A text without a space is one word. *)
Lemma split_space_one_word (s : string) : no_space s -> Py.split " " s = [s].
Proof.
  induction s as [|c s IH]; [reflexivity|]. intros [Hc Hs].
  rewrite split_space_step, (IH Hs). apply Ascii.eqb_neq in Hc. now rewrite Hc.
Qed.

Lemma words_of_app (a b : list string) :
  words_of (a ++ b) = (words_of a ++ words_of b)%list.
Proof. unfold words_of. now rewrite flat_map_app, filter_app. Qed.

Section Fit.

Variables (w : Z) (words : list string).

Let fits (line : string) : Prop :=
  (Z.of_nat (String.length line) < w)%Z \/ In line words \/ line = "".

Lemma wrap_words_fit_or_one_word (ws : list string) :
  Forall (fun word => In word words) ws ->
  forall lines line,
    Forall fits lines -> fits line ->
    Forall fits (fst (fold_left (wrap_word w) ws (lines, line)))
    /\ fits (snd (fold_left (wrap_word w) ws (lines, line))).
Proof.
  induction 1 as [|word ws Hword _ IH]; intros lines line Hlines Hline.
  - now split.
  - cbn [fold_left]. unfold wrap_word at 2 4.
    destruct (Z.ltb_spec
                (Z.of_nat (String.length (if String.eqb line "" then word
                                          else line ++ " " ++ word))) w) as [Hlt|_].
    + apply IH; [assumption | now left].
    + apply IH; [|right; now left].
      apply Forall_app. split; [assumption | now constructor].
Qed.

(** One round of the loop adds the word to the words of the lines. *)
Lemma wrap_word_words (lines : list string) (line word : string) :
  no_space word ->
  words_of (fst (wrap_word w (lines, line) word) ++ [snd (wrap_word w (lines, line) word)])
  = (words_of (lines ++ [line]) ++ filter is_word [word])%list.
Proof.
  intros Hword. unfold wrap_word.
  destruct (Z.of_nat (String.length (if String.eqb line "" then word
                                     else line ++ " " ++ word)) <? w)%Z; cbn [fst snd].
  - rewrite !words_of_app. rewrite <- app_assoc. f_equal.
    unfold words_of. cbn [flat_map]. rewrite !app_nil_r.
    destruct (String.eqb_spec line "") as [->|_].
    + now rewrite (split_space_one_word word Hword).
    + now rewrite split_space_append, filter_app, (split_space_one_word word Hword).
  - rewrite words_of_app. f_equal.
    unfold words_of. cbn [flat_map]. now rewrite app_nil_r, (split_space_one_word word Hword).
Qed.

Lemma wrap_words_words (ws : list string) :
  Forall no_space ws ->
  forall lines line,
    words_of (fst (fold_left (wrap_word w) ws (lines, line))
                ++ [snd (fold_left (wrap_word w) ws (lines, line))])
    = (words_of (lines ++ [line]) ++ filter is_word ws)%list.
Proof.
  induction 1 as [|word ws Hword _ IH]; intros lines line.
  - cbn. now rewrite app_nil_r.
  - cbn [fold_left].
    destruct (wrap_word w (lines, line) word) as [lines1 line1] eqn:E.
    rewrite IH. pose proof (wrap_word_words lines line word Hword) as Hstep.
    rewrite E in Hstep. cbn [fst snd] in Hstep. rewrite Hstep, <- app_assoc.
    f_equal. change (word :: ws) with ([word] ++ ws)%list. now rewrite filter_app.
Qed.

End Fit.

(** X10: [multiple_lines] returns at least one line; every line it returns
    is shorter than the width, or is one word of the text, or is empty; and
    the words of the lines it returns, in order, are the words of the text
    (the pieces between its spaces that are not empty): no word is lost,
    cut, added or moved. *)
Theorem multiple_lines_fit_or_one_word (text : string) (w : Z) :
  multiple_lines text w <> []
  /\ Forall (fun line =>
               (Z.of_nat (String.length line) < w)%Z
               \/ In line (Py.split " " text)
               \/ line = "")
            (multiple_lines text w)
  /\ words_of (multiple_lines text w) = words_of [text].
Proof.
  unfold multiple_lines.
  assert (Hin : Forall (fun word => In word (Py.split " " text)) (Py.split " " text)).
  { apply Forall_forall. auto. }
  destruct (wrap_words_fit_or_one_word w (Py.split " " text) (Py.split " " text) Hin
              [] "" (Forall_nil _) (or_intror (or_intror eq_refl))) as [Hlines Hline].
  pose proof (wrap_words_words w (Py.split " " text) (split_space_no_space text) [] "")
    as Hwords.
  destruct (fold_left (wrap_word w) (Py.split " " text) ([], "")) as [lines line].
  cbn [fst snd] in Hlines, Hline, Hwords.
  assert (Htext : words_of [text] = filter is_word (Py.split " " text)).
  { unfold words_of. cbn [flat_map]. now rewrite app_nil_r. }
  rewrite Htext. clear Htext.
  destruct line as [|c line]; cbn [String.length Nat.ltb Nat.leb].
  - rewrite words_of_app in Hwords. cbn in Hwords. rewrite app_nil_r in Hwords.
    destruct lines as [|l lines]; cbn [List.length Nat.eqb app].
    + split; [discriminate|]. split; [repeat constructor; now right; right|].
      rewrite <- Hwords. reflexivity.
    + split; [discriminate|]. split; assumption.
  - assert (Hlen : (List.length (lines ++ [String c line]) =? 0)%nat = false).
    { rewrite length_app. cbn. apply Nat.eqb_neq. lia. }
    rewrite Hlen. split; [now destruct lines|]. split.
    + apply Forall_app. split; [assumption | now constructor].
    + exact Hwords.
Qed.

Lemma join_first_length (sep p : string) (ps : list string) :
  (String.length p <= String.length (Py.join sep (p :: ps)))%nat.
Proof.
  destruct ps as [|q ps]; [cbn; lia|].
  rewrite join_cons by discriminate. rewrite length_append. lia.
Qed.

(** The loop when everything that is left fits one line. *)
Lemma wrap_words_one_line (w : Z) (ws : list string) :
  forall lines line,
    line <> "" ->
    (Z.of_nat (String.length (Py.join " " (line :: ws))) < w)%Z ->
    fold_left (wrap_word w) ws (lines, line) = (lines, Py.join " " (line :: ws)).
Proof.
  induction ws as [|word ws IH]; intros lines line Hne Hfit; [reflexivity|].
  cbn [fold_left]. unfold wrap_word at 2.
  apply String.eqb_neq in Hne as Hb. rewrite Hb.
  pose proof (join_merge [] line word ws) as Hm. cbn [app] in Hm.
  pose proof (join_first_length " " (line ++ " " ++ word) ws) as Hlen.
  rewrite Hm in Hlen.
  assert (Hlt : (Z.of_nat (String.length (line ++ " " ++ word)) <? w)%Z = true).
  { apply Z.ltb_lt. lia. }
  rewrite Hlt, <- Hm. apply IH.
  - destruct line; [congruence | discriminate].
  - now rewrite Hm.
Qed.

(** X11: a text that is shorter than the width and does not start with a
    space (its first word is not empty) comes back as one line, the text
    itself, spaces inside it and at its end included. *)
Theorem multiple_lines_short_text_is_one_line (text : string) (w : Z) :
  hd "" (Py.split " " text) <> "" ->
  (Z.of_nat (String.length text) < w)%Z ->
  multiple_lines text w = [text].
Proof.
  intros Hfirst Hshort. unfold multiple_lines.
  pose proof (join_split_space text) as Hjoin.
  destruct (Py.split " " text) as [|first ws]; [now contradiction Hfirst|].
  cbn [hd] in Hfirst. cbn [fold_left]. unfold wrap_word at 2. cbn [String.eqb].
  pose proof (join_first_length " " first ws) as Hlen. rewrite Hjoin in Hlen.
  assert (Hlt : (Z.of_nat (String.length first) <? w)%Z = true).
  { apply Z.ltb_lt. lia. }
  rewrite Hlt, wrap_words_one_line by (rewrite ?Hjoin; assumption).
  rewrite Hjoin.
  assert (Hpos : (0 <? String.length text)%nat = true).
  { apply Nat.ltb_lt. destruct first; [congruence|]. cbn in Hlen. lia. }
  rewrite Hpos. reflexivity.
Qed.

Lemma multiple_lines_short_text_is_one_line_witness :
  multiple_lines "two  spaces and one at the end " 70 = ["two  spaces and one at the end "].
Proof.
  apply multiple_lines_short_text_is_one_line.
  - vm_compute. discriminate.
  - vm_compute. reflexivity.
Defined.

(** ** [adjusted_legth_text] with [longest_text] *)

Lemma spaces_append (m n : nat) : Py.spaces m ++ Py.spaces n = Py.spaces (m + n).
Proof. induction m as [|m IH]; [reflexivity|]. cbn. now rewrite IH. Qed.

(** X12: every text of a list, padded to what [longest_text] gives for
    the list, has exactly that length: the names of the listing make a
    column of one width. *)
Theorem adjusted_legth_text_to_longest_text (text_list : list string) (text : string) :
  In text text_list ->
  Z.of_nat (String.length (adjusted_legth_text text (longest_text text_list)))
  = longest_text text_list.
Proof.
  intros Hin. apply longest_text_ge in Hin.
  rewrite adjusted_legth_text_spaces, length_append, length_spaces. lia.
Qed.

Lemma adjusted_legth_text_to_longest_text_witness :
  Z.of_nat (String.length (adjusted_legth_text "foo" (longest_text ["foo"; "longer"; "x"])))
  = longest_text ["foo"; "longer"; "x"].
Proof.
  apply (adjusted_legth_text_to_longest_text ["foo"; "longer"; "x"] "foo").
  simpl. tauto.
Defined.

(** X13: padding a padded text is padding once, to the larger of the two
    lengths; in particular padding twice to one length changes nothing. *)
Theorem adjusted_legth_text_twice (text : string) (a b : Z) :
  adjusted_legth_text (adjusted_legth_text text a) b
  = adjusted_legth_text text (Z.max a b).
Proof.
  rewrite !adjusted_legth_text_spaces, append_assoc, spaces_append, length_append,
    length_spaces.
  do 2 f_equal. lia.
Qed.

(** ** [main] and [general_help] *)

Lemma main_help_mode (env : environment) (argv : list string) :
  (List.length argv <= 1)%nat ->
  main env argv = (help <<- general_help env ;; print help).
Proof.
  intros Hlen. destruct argv as [|p [|a r]]; [reflexivity | reflexivity | cbn in Hlen; lia].
Qed.

(** X14: without user arguments, when no enumerated name fails, the
    dispatcher imports every enumerated name once, in the order of the
    directory listing, then prints one text, the usage banner followed by
    the rows of the scripts that resolve and two newlines, and ends
    normally; it enters no script. *)
Theorem main_without_arguments_prints_help (env : environment) (argv : list string) :
  (List.length argv <= 1)%nat ->
  Forall (fun nm => name_failure env nm = None) (get_import_names (listdir env)) ->
  let names := get_import_names (listdir env) in
  let width := Z.to_nat (longest_text names) in
  let listing := concat_rows (flat_map (listing_rows width) (flat_map (descriptors_of env) names)) in
  main env argv
  = ((map EvImport names ++ [EvStdout ((usage_banner ++ listing ++ Py.NL ++ Py.NL) ++ Py.NL)])%list,
     Ok tt).
Proof.
  intros Hlen Hall names width listing.
  rewrite (main_help_mode env argv Hlen). unfold general_help, available_scripts.
  fold names. rewrite (get_quick_doc_no_failure env names Hall).
  unfold bind, ret, print. rewrite listing_of_descriptors.
  cbn [String.append app]. fold width. fold listing.
  rewrite !app_nil_r. reflexivity.
Qed.

Lemma main_without_arguments_prints_help_witness :
  main sample_env ["may.py"]
  = ([EvImport "foo"; EvImport "bar"]
       ++ [EvStdout
             ((usage_banner
                 ++ concat_rows
                      (flat_map (listing_rows 3)
                         (flat_map (descriptors_of sample_env) ["foo"; "bar"]))
                 ++ Py.NL ++ Py.NL) ++ Py.NL)],
     Ok tt)%list.
Proof.
  apply (main_without_arguments_prints_help sample_env ["may.py"]).
  - simpl. lia.
  - repeat constructor.
Defined.

(** X15: without user arguments, the first enumerated name that fails
    ends the run with its exception: the run is the imports made up to that
    name and nothing after them; the names that follow are not imported,
    and the program prints neither the usage banner nor a listing. *)
Theorem main_without_arguments_aborts_on_failure
        (env : environment) (argv before after : list string) (nm : string) (e : exn) :
  (List.length argv <= 1)%nat ->
  get_import_names (listdir env) = (before ++ nm :: after)%list ->
  Forall (fun n => name_failure env n = None) before ->
  name_failure env nm = Some e ->
  main env argv = (map EvImport (before ++ [nm]), Raise e).
Proof.
  intros Hlen Hnames Hbefore Hnm.
  rewrite (main_help_mode env argv Hlen). unfold general_help, available_scripts.
  rewrite Hnames, (get_quick_doc_first_failure env before after nm e Hbefore Hnm).
  reflexivity.
Qed.

Lemma main_without_arguments_aborts_on_failure_witness :
  main odd_env [] = (map EvImport (["echo"] ++ ["odd"]), Raise IndexError).
Proof.
  apply (main_without_arguments_aborts_on_failure odd_env [] ["echo"] ["bar"] "odd" IndexError).
  - simpl. lia.
  - reflexivity.
  - repeat constructor.
  - reflexivity.
Defined.

(** X16: outside the manual pattern, once the script is imported and has
    a [main], the run is the import, the call and the output of the script,
    and it ends as the script ends: an exception of the script is not
    caught, except [ModuleNotFoundError], which is reported as
    [ERROR: Script not found] although the script was found and has run,
    after which the run ends normally. *)
Theorem main_ends_as_the_script_ends
        (env : environment) (prog script : string) (rest : list string)
        (m : module) (f : list string -> list string * result unit)
        (out : list string) (r : result unit) :
  (script = "manual" -> List.length rest <> 1%nat) ->
  import_module env script = Ok m ->
  mod_main m = Some f ->
  f rest = (out, r) ->
  main env (prog :: script :: rest)
  = match r with
    | Raise ModuleNotFoundError =>
        ((EvImport script :: EvEnter script rest :: map EvStdout out)
           ++ [EvStdout ("ERROR: Script not found" ++ Py.NL)], Ok tt)%list
    | _ => (EvImport script :: EvEnter script rest :: map EvStdout out, r)
    end.
Proof.
  intros Hrun Hm Hf Hr. rewrite (main_run_mode env prog script rest Hrun).
  unfold try_except_ModuleNotFoundError, bind, import_, call_main, print.
  rewrite Hm, Hf, Hr. destruct r as [[]|[]]; reflexivity.
Qed.

Lemma main_ends_as_the_script_ends_witness :
  main convert_env ["may.py"; "convert"; "a.txt"]
  = ([EvImport "convert"; EvEnter "convert" ["a.txt"]; EvStdout "working";
      EvStdout ("ERROR: Script not found" ++ Py.NL)], Ok tt).
Proof.
  refine (main_ends_as_the_script_ends convert_env "may.py" "convert" ["a.txt"]
            convert_module (fun _ => (["working"], Raise ModuleNotFoundError))
            ["working"] (Raise ModuleNotFoundError) _ eq_refl eq_refl eq_refl).
  intros H. discriminate H.
Defined.

(** X17: outside the manual pattern, a script that is imported but has no
    [main] ends the run with [AttributeError] right after the import: the
    program enters nothing and prints nothing of its own, the line
    [ERROR: Script not found] included. *)
Theorem main_script_without_main
        (env : environment) (prog script : string) (rest : list string) (m : module) :
  (script = "manual" -> List.length rest <> 1%nat) ->
  import_module env script = Ok m ->
  mod_main m = None ->
  main env (prog :: script :: rest) = ([EvImport script], Raise AttributeError).
Proof.
  intros Hrun Hm Hf. rewrite (main_run_mode env prog script rest Hrun).
  unfold try_except_ModuleNotFoundError, bind, import_, call_main, lift.
  now rewrite Hm, Hf.
Qed.

Lemma main_script_without_main_witness :
  main sample_env ["may.py"; "bar"; "--help"] = ([EvImport "bar"], Raise AttributeError).
Proof.
  refine (main_script_without_main sample_env "may.py" "bar" ["--help"] _ _ eq_refl eq_refl).
  intros H. discriminate H.
Defined.

(** X18: a failure of the import other than not-found is not caught, in
    manual mode as in run mode: the run ends with that exception right
    after the import, and the program prints nothing of its own, the line
    [ERROR: Script not found] included. *)
Theorem main_other_import_failure_propagates
        (env : environment) (prog nm : string) (e : exn) :
  import_module env nm = Raise e ->
  e <> ModuleNotFoundError ->
  main env [prog; "manual"; nm] = ([EvImport nm], Raise e)
  /\ forall rest,
       (nm = "manual" -> List.length rest <> 1%nat) ->
       main env (prog :: nm :: rest) = ([EvImport nm], Raise e).
Proof.
  intros Hnm He. split.
  - rewrite main_manual_mode.
    unfold try_except_ModuleNotFoundError, bind, import_. rewrite Hnm.
    destruct e; [congruence | reflexivity ..].
  - intros rest Hrun. rewrite (main_run_mode env prog nm rest Hrun).
    unfold try_except_ModuleNotFoundError, bind, import_. rewrite Hnm.
    destruct e; [congruence | reflexivity ..].
Qed.

Lemma main_other_import_failure_propagates_witness :
  main sample_env ["may.py"; "manual"; "broken"]
  = ([EvImport "broken"], Raise (OtherError "SyntaxError")).
Proof.
  refine (proj1 (main_other_import_failure_propagates
                   sample_env "may.py" "broken" (OtherError "SyntaxError") eq_refl _)).
  discriminate.
Defined.
